(** * EnergySense: the dashboard's block cards, sparkline and stream state

    A shallow embedding of the TypeScript front end of the repository
    (BlockStatusCards, Sparkline, BlockDetailModal, the Dashboard and Booting
    pages and the snapshot types) together with a model, taken from the
    specification, of the streaming classification engine whose Python
    sources are not part of the tree.

    Conventions.
    - Numbers.  The numeric code is modelled twice.  In the first model a
      JavaScript [number] is [JS.number]: a finite value is an exact
      rational, and the three non-finite values (+Infinity, -Infinity, NaN)
      are kept with their IEEE-754 arithmetic; binary64 rounding, overflow,
      the sign of zero and the limits of an engine are left out.  It serves
      the properties that do not depend on them: which branch is taken, what
      is displayed where, bounds that rounding preserves.  Where overflow
      would break such a property, its absence is a hypothesis
      ([JS.in_range]).  The second model, [Binary64], evaluates the same
      source expressions on binary64 numbers, the kernel's primitive floats;
      it serves what rounding, ties, overflow or the engine decide.
    - A rendered React tree is modelled by the data it displays (a record per
      card, a list of points per polyline); class names that only style the
      output are kept where the source selects them from a table.
    - [Date.now()] and [Math.sin] are inputs of the model. *)

From Stdlib Require Import QArith Qround Qabs Lqa ZArith Lia Sorted.
From Stdlib Require PrimFloat SpecFloat FloatOps FloatAxioms.
From stdpp Require Import list strings sorting gmap.

(** ** JavaScript numbers *)

Module JS.

Local Open Scope Q_scope.

Inductive number :=
  | Fin (q : Q)
  | Inf (positive : bool)
  | NaN.

Abbreviation Infinity := (Inf true).
Abbreviation NegInfinity := (Inf false).

Definition isFinite (n : number) : bool :=
  match n with Fin _ => true | _ => false end.

Definition isNaN (n : number) : bool :=
  match n with NaN => true | _ => false end.

(** Sign of a finite value, zero counted as +0. *)
Definition nonneg (q : Q) : bool := Qle_bool 0 q.

Definition same_sign (s t : bool) : bool := Bool.eqb s t.

Definition neg (a : number) : number :=
  match a with
  | Fin x => Fin (- x)
  | Inf s => Inf (negb s)
  | NaN => NaN
  end.

Definition add (a b : number) : number :=
  match a, b with
  | NaN, _ | _, NaN => NaN
  | Fin x, Fin y => Fin (x + y)
  | Inf s, Inf t => if same_sign s t then Inf s else NaN
  | Inf s, Fin _ | Fin _, Inf s => Inf s
  end.

Definition sub (a b : number) : number := add a (neg b).

Definition mul (a b : number) : number :=
  match a, b with
  | NaN, _ | _, NaN => NaN
  | Fin x, Fin y => Fin (x * y)
  | Inf s, Inf t => Inf (same_sign s t)
  | Inf s, Fin x | Fin x, Inf s =>
      if Qeq_bool x 0 then NaN else Inf (same_sign s (nonneg x))
  end.

Definition div (a b : number) : number :=
  match a, b with
  | NaN, _ | _, NaN => NaN
  | Inf _, Inf _ => NaN
  | Inf s, Fin y => Inf (same_sign s (nonneg y))
  | Fin _, Inf _ => Fin 0
  | Fin x, Fin y =>
      if Qeq_bool y 0
      then (if Qeq_bool x 0 then NaN else Inf (nonneg x))
      else Fin (x / y)
  end.

(** [a < b]; every comparison with NaN is false. *)
Definition ltb (a b : number) : bool :=
  match a, b with
  | NaN, _ | _, NaN => false
  | Fin x, Fin y => negb (Qle_bool y x)
  | Fin _, Inf t => t
  | Inf s, Fin _ => negb s
  | Inf s, Inf t => negb s && t
  end.

(** [a > b]. *)
Definition gtb (a b : number) : bool := ltb b a.

(** ToBoolean on a number: 0 and NaN are falsy. *)
Definition truthy (a : number) : bool :=
  match a with
  | Fin x => negb (Qeq_bool x 0)
  | Inf _ => true
  | NaN => false
  end.

(** [a || b] on numbers. *)
Definition or_else (a b : number) : number := if truthy a then a else b.

Definition max2 (a b : number) : number :=
  match a, b with
  | NaN, _ | _, NaN => NaN
  | _, _ => if ltb a b then b else a
  end.

Definition min2 (a b : number) : number :=
  match a, b with
  | NaN, _ | _, NaN => NaN
  | _, _ => if ltb b a then b else a
  end.

(** [Math.max(...values)] and [Math.min(...values)]: -Infinity and +Infinity
    on no argument, NaN as soon as one argument is NaN. *)
Definition Math_max (values : list number) : number :=
  foldr max2 NegInfinity values.

Definition Math_min (values : list number) : number :=
  foldr min2 Infinity values.

(** [Math.round]: the nearest integer, ties towards +Infinity. *)
Definition Math_round (a : number) : number :=
  match a with
  | Fin x => Fin (inject_Z (Qfloor (x + (1 # 2))))
  | _ => a
  end.

Definition pow10 (digits : nat) : Q := inject_Z (10 ^ Z.of_nat digits).

(** [Number(a.toFixed(digits))] on exact values: the value the decimal
    string stands for.  ECMAScript rounds the magnitude to the nearest
    multiple of [10^-digits], the larger one on a tie, and keeps the sign;
    from 1e21 on, and on the non-finite values, the string is that of the
    number itself.  The digits of a binary64 number, which need not be the
    decimal it was written as, are those of [Binary64.toFixed]. *)
Definition toFixed (digits : nat) (a : number) : number :=
  match a with
  | Fin x =>
      if Qle_bool (inject_Z (10 ^ 21)) (Qabs x) then Fin x
      else
        let n := Qfloor (Qabs x * pow10 digits + (1 # 2)) in
        Fin (inject_Z (if nonneg x then n else - n) / pow10 digits)
  | _ => a
  end.

(** A number from an array index or a length. *)
Definition of_nat (n : nat) : number := Fin (inject_Z (Z.of_nat n)).

(** Equality of numbers as values: finite ones as rationals. *)
Definition eqv (a b : number) : Prop :=
  match a, b with
  | Fin x, Fin y => x == y
  | Inf s, Inf t => s = t
  | NaN, NaN => True
  | _, _ => False
  end.

(** [a] is finite and within [eps] of the rational [target]. *)
Definition approx (eps : Q) (a : number) (target : Q) : Prop :=
  match a with
  | Fin x => Qabs (x - target) <= eps
  | _ => False
  end.



End JS.

Import JS.

Local Open Scope string_scope.

(** ** Data model of the front end *)

(** [WasteClass] of BlockStatusCards.tsx, [WasteStatus] of types/dashboard.ts. *)
Inductive WasteClass := NORMAL | NECESSARY | POSSIBLE_WASTE | WASTE.

#[global] Instance WasteClass_eq_dec : EqDecision WasteClass.
Proof. solve_decision. Defined.

(** A point of a block's history.  [ts] is an ISO-8601 string in the source,
    always obtained from an instant by [toISOString]; the model keeps the
    instant, in milliseconds since the epoch. *)
Module BlockHistoryPoint.
Record t := mk {
  ts : Z;
  deviation_pct : number;
  energy_kwh : number;
  baseline_kwh : number;
}.
End BlockHistoryPoint.

(** [BlockData]: a row of BlockStatusCards.  The optional forecast and LSTM
    captions of the source are left out. *)
Module BlockData.
Record t := mk {
  id : option string;
  block : string;
  energy_kwh : number;
  baseline : number;
  occupancy : number;
  temperature : number;
  status : WasteClass;
  savings : number;
  deviation_pct : option number;
  tariff_inr_per_kwh : option number;
  cost_inr : option number;
  waste_cost_inr : option number;
  carbon_intensity_kg_per_kwh : option number;
  co2_kg : option number;
  root_cause : option string;
  history : option (list BlockHistoryPoint.t);
}.
End BlockData.

(** ** Sparkline.tsx *)

Module Sparkline.

Inductive view :=
  | NoActivityYet
  | Polyline (width height : number) (stroke : string)
             (points : list (number * number)).

Definition width : number := Fin 100.

(** [max - min || 1] *)
Definition range (values : list number) : number :=
  or_else (sub (Math_max values) (Math_min values)) (Fin 1).

Definition point (values : list number) (height : number)
    (index : nat) (value : number) : number * number :=
  let min := Math_min values in
  let x := mul (div (of_nat index) (of_nat (length values - 1))) width in
  let y := sub height (mul (div (sub value min) (range values)) height) in
  (x, y).

Definition points (values : list number) (height : number)
    : list (number * number) :=
  imap (point values height) values.

Definition default_stroke : string := "hsl(var(--primary))".
Definition default_height : number := Fin 36.

(** The component; [values] is a required array in the source, which also
    guards against a missing one. *)
Definition Sparkline (values : list number) (stroke : string)
    (height : number) : view :=
  if (length values <? 2)%nat then NoActivityYet
  else Polyline width height stroke (points values height).

(** Every coordinate of the rendered polyline is a finite number. *)
Definition finitePoint (xy : number * number) : bool :=
  isFinite xy.1 && isFinite xy.2.

Definition finiteCoordinates (v : view) : bool :=
  match v with
  | NoActivityYet => true
  | Polyline _ _ _ points => forallb finitePoint points
  end.

End Sparkline.

(** ** BlockStatusCards.tsx *)

Module BlockStatusCards.

Record StatusStyle := {
  label : string;
  className : string;
  borderClass : string;
}.

Definition statusConfig (s : WasteClass) : StatusStyle :=
  match s with
  | NORMAL => {| label := "NORMAL"; className := "neon-text";
                 borderClass := "neon-border" |}
  | NECESSARY => {| label := "NECESSARY"; className := "neon-text-green";
                    borderClass := "neon-border-green" |}
  | POSSIBLE_WASTE => {| label := "POSSIBLE WASTE";
                         className := "neon-text-amber";
                         borderClass := "neon-border-amber" |}
  | WASTE => {| label := "WASTE"; className := "neon-text-red";
                borderClass := "neon-border-red" |}
  end.

Definition statusSparkline (s : WasteClass) : string :=
  match s with
  | NORMAL => "hsl(var(--neon-green))"
  | NECESSARY => "hsl(var(--primary))"
  | POSSIBLE_WASTE => "hsl(var(--warning))"
  | WASTE => "hsl(var(--neon-red))"
  end.

(** The props; [onBlockClick] only forwards the clicked row and is left out. *)
Record Props := {
  blocks : option (list BlockData.t);
  title : option string;
  subtitle : option string;
  liveLabel : option string;
  showLiveIndicator : option bool;
  totalSavingsOverride : option number;
}.

(** What one card displays. *)
Record Card := {
  key : string * nat;
  row : BlockData.t;
  cfg : StatusStyle;
  energy_bar_pct : number;
  deviation : number;
  deviation_shown : number;
  deviation_destructive : bool;
  history_pts : nat;
  activity : Sparkline.view;
  savings_shown : number;
}.

Inductive Grid :=
  | Placeholder (text : string)
  | CardGrid (cards : list Card).

Record View := {
  heading : string;
  lead : string;
  totalSavings : number;
  totalSavings_shown : number;
  live_indicator : option string;
  grid : Grid;
}.

Section Env.

(** [Math.sin], and the successive readings of [Date.now()]. *)
Variable Math_sin : number -> number.
Variable Date_now : nat -> Z.

(** The locals [deviation] and [energy] of generateHistory at index [i]. *)
Definition deviation_at (variance seed : number) (i : nat) : number :=
  add (mul (Math_sin (add (div (of_nat i) (Fin 2)) seed)) variance)
      (div variance (Fin 3)).

Definition energy_at (baseline variance seed : number) (i : nat) : number :=
  mul baseline (add (Fin 1) (div (deviation_at variance seed i) (Fin 100))).

(** [now] is the reading of [Date.now()] taken by the call. *)
Definition generateHistory (now : Z) (baseline variance seed : number)
    : list BlockHistoryPoint.t :=
  (fun i : nat =>
     BlockHistoryPoint.mk
       (now - (16 - Z.of_nat i) * 15000)%Z
       (toFixed 1 (deviation_at variance seed i))
       (toFixed 2 (energy_at baseline variance seed i))
       baseline) <$> seq 0 16.

Definition mock (k : nat) (block : string)
    (energy_kwh baseline occupancy temperature : Q) (status : WasteClass)
    (savings variance seed : Q) : BlockData.t :=
  BlockData.mk None block (Fin energy_kwh) (Fin baseline) (Fin occupancy)
    (Fin temperature) status (Fin savings) None None None None None None None
    (Some (generateHistory (Date_now k) (Fin baseline) (Fin variance)
             (Fin seed))).

Definition mockBlocks : list BlockData.t :=
  [ mock 0 "Block A — Admin" 42.3 38.5 85 34 NECESSARY 0 10 1;
    mock 1 "Block B — CS Dept" 55.1 35.0 12 26 WASTE 20.1 18 2;
    mock 2 "Block C — Library" 30.2 28.0 60 30 NORMAL 2.2 6 3;
    mock 3 "Block D — Labs" 48.7 36.0 20 33 POSSIBLE_WASTE 12.7 14 4;
    mock 4 "Block E — Hostel" 25.4 24.0 70 29 NORMAL 1.4 5 5;
    mock 5 "Block F — Canteen" 62.0 34.0 8 25 WASTE 28.0 20 6 ].

Definition hasLiveData (p : Props) : bool :=
  match blocks p with
  | Some bs => (0 <? length bs)%nat
  | None => false
  end.

Definition rows (p : Props) : list BlockData.t :=
  if hasLiveData p then default [] (blocks p)
  else if bool_decide (is_Some (blocks p)) then []
  else mockBlocks.

Definition computeTotalSavings (p : Props) : number :=
  match totalSavingsOverride p with
  | Some override => override
  | None => foldl (fun sum b => add sum (BlockData.savings b)) (Fin 0) (rows p)
  end.

(** [block.deviation_pct ?? ((block.energy_kwh - block.baseline) /
    block.baseline * 100)] *)
Definition computeDeviation (block : BlockData.t) : number :=
  match BlockData.deviation_pct block with
  | Some d => d
  | None =>
      mul (div (sub (BlockData.energy_kwh block) (BlockData.baseline block))
               (BlockData.baseline block))
          (Fin 100)
  end.

Definition card (i : nat) (block : BlockData.t) : Card :=
  let deviation := computeDeviation block in
  let history := default [] (BlockData.history block) in
  {| key := (BlockData.block block, i);
     row := block;
     cfg := statusConfig (BlockData.status block);
     energy_bar_pct :=
       min2 (mul (div (BlockData.energy_kwh block) (Fin 70)) (Fin 100))
            (Fin 100);
     deviation := deviation;
     deviation_shown := toFixed 1 deviation;
     deviation_destructive := gtb deviation (Fin 15);
     history_pts := length history;
     activity :=
       Sparkline.Sparkline (BlockHistoryPoint.deviation_pct <$> history)
         (statusSparkline (BlockData.status block)) (Fin 34);
     savings_shown := toFixed 1 (BlockData.savings block) |}.

Definition BlockStatusCards (p : Props) : View :=
  let rows := rows p in
  let totalSavings := computeTotalSavings p in
  {| heading := default "Live Block Status" (title p);
     lead := default "Real-time contextual classification for every building block. Each block maintains its own rolling baseline." (subtitle p);
     totalSavings := totalSavings;
     totalSavings_shown := toFixed 1 totalSavings;
     live_indicator :=
       if default true (showLiveIndicator p)
       then Some (default "LIVE — Streaming from Pathway" (liveLabel p))
       else None;
     grid :=
       if (length rows =? 0)%nat
       then Placeholder "Waiting for live block data..."
       else CardGrid (imap card rows) |}.

End Env.

End BlockStatusCards.

(** ** types/dashboard.ts *)

Module BlockStatus.
Record t := mk {
  block_id : string;
  block_label : string;
  energy_kwh : number;
  baseline_kwh : number;
  occupancy : number;
  temperature : number;
  status : WasteClass;
  savings_kwh : number;
  deviation_pct : number;
  tariff_inr_per_kwh : number;
  cost_inr : number;
  waste_cost_inr : number;
  carbon_intensity_kg_per_kwh : number;
  co2_kg : number;
  root_cause : string;
  updated_at : string;
  history : option (list BlockHistoryPoint.t);
}.
End BlockStatus.

Module DashboardTotals.
Record t := mk {
  total_energy_kwh : number;
  total_savings_kwh : number;
  co2_kg : number;
  total_cost_inr : number;
  total_waste_cost_inr : number;
  total_co2_kg : number;
  efficiency_score : number;
  monthly_avoided_kwh : number;
  waste_blocks : number;
  block_count : number;
}.
End DashboardTotals.

Inductive StreamStatus := WAITING_FOR_DATA | IDLE | LIVE.

#[global] Instance StreamStatus_eq_dec : EqDecision StreamStatus.
Proof. solve_decision. Defined.

Module PathwayState.
Record t := mk {
  stream_status : StreamStatus;
  last_ingest_at : option string;
  events_last_minute : number;
  event_rate_per_minute : number;
  blocks_updated : number;
}.
End PathwayState.

Module DashboardSnapshot.
Record t := mk {
  generated_at : string;
  org_name : string;
  blocks : list BlockStatus.t;
  totals : DashboardTotals.t;
  pathway_state : option PathwayState.t;
}.
End DashboardSnapshot.

(** ** The Dashboard page *)

Module Dashboard.

(** What the page reads on a render: the stream hook's [data], [status] and
    [lastMessageAt], the [fallback] state holding the last snapshot received,
    and the clock. *)
Record State := {
  data : option DashboardSnapshot.t;
  fallback : option DashboardSnapshot.t;
  status : string;
  lastMessageAt : option Z;
  now : Z;
}.

(** [data ?? fallback] *)
Definition snapshot (st : State) : option DashboardSnapshot.t :=
  match data st with
  | Some d => Some d
  | None => fallback st
  end.

(** [snapshot?.pathway_state] *)
Definition pathwayState (st : State) : option PathwayState.t :=
  snapshot st ≫= DashboardSnapshot.pathway_state.

Definition liveFromEvents (st : State) : bool :=
  String.eqb (status st) "live" &&
  match lastMessageAt st with
  | Some at_ms => (now st - at_ms <? 6000)%Z
  | None => false
  end.

Definition waitingForData (st : State) : bool :=
  match snapshot st with
  | None => true
  | Some s =>
      bool_decide (PathwayState.stream_status <$> pathwayState st
                   = Some WAITING_FOR_DATA)
      || (length (DashboardSnapshot.blocks s) =? 0)%nat
  end.

Definition isLive (st : State) : bool :=
  liveFromEvents st && negb (waitingForData st).

Definition streamLabel (st : State) : string :=
  if waitingForData st then "WAITING FOR DATA"
  else if isLive st then "LIVE STREAM"
  else "RECONNECTING".

Definition streamDotClass (st : State) : string :=
  if waitingForData st || negb (isLive st) then "bg-warning"
  else "bg-neon-green".

(** The rows handed to BlockStatusCards. *)
Definition toBlockData (block : BlockStatus.t) : BlockData.t :=
  {| BlockData.id := Some (BlockStatus.block_id block);
     BlockData.block := BlockStatus.block_label block;
     BlockData.energy_kwh := BlockStatus.energy_kwh block;
     BlockData.baseline := BlockStatus.baseline_kwh block;
     BlockData.occupancy := Math_round (BlockStatus.occupancy block);
     BlockData.temperature := BlockStatus.temperature block;
     BlockData.status := BlockStatus.status block;
     BlockData.savings := BlockStatus.savings_kwh block;
     BlockData.deviation_pct := Some (BlockStatus.deviation_pct block);
     BlockData.tariff_inr_per_kwh := Some (BlockStatus.tariff_inr_per_kwh block);
     BlockData.cost_inr := Some (BlockStatus.cost_inr block);
     BlockData.waste_cost_inr := Some (BlockStatus.waste_cost_inr block);
     BlockData.carbon_intensity_kg_per_kwh :=
       Some (BlockStatus.carbon_intensity_kg_per_kwh block);
     BlockData.co2_kg := Some (BlockStatus.co2_kg block);
     BlockData.root_cause := Some (BlockStatus.root_cause block);
     BlockData.history := Some (default [] (BlockStatus.history block)) |}.

Definition blocks (st : State) : list BlockData.t :=
  match snapshot st with
  | None => []
  | Some s => toBlockData <$> DashboardSnapshot.blocks s
  end.

Definition isHotspot (block : BlockStatus.t) : bool :=
  bool_decide (BlockStatus.status block = WASTE)
  || bool_decide (BlockStatus.status block = POSSIBLE_WASTE).

Definition hotspots (st : State) : list BlockStatus.t :=
  match snapshot st with
  | None => []
  | Some s => filter (fun block => isHotspot block) (DashboardSnapshot.blocks s)
  end.

(** The props of the page's <BlockStatusCards ... />. *)
Definition cardsProps (st : State) : BlockStatusCards.Props :=
  {| BlockStatusCards.blocks := Some (blocks st);
     BlockStatusCards.title := Some "Block-Level Live Status";
     BlockStatusCards.subtitle := Some "Each block uses its own rolling baseline to detect contextual anomalies in real time.";
     BlockStatusCards.liveLabel :=
       Some (if waitingForData st then "WAITING FOR DATA"
             else if isLive st then "LIVE — Pathway streaming"
             else "SYNCING...");
     BlockStatusCards.showLiveIndicator := None;
     BlockStatusCards.totalSavingsOverride :=
       (fun s => DashboardTotals.total_savings_kwh (DashboardSnapshot.totals s))
         <$> snapshot st |}.

End Dashboard.

(** ** The streaming engine, from the specification *)

Module Engine.

Local Open Scope Q_scope.

(** Modelled from the spec: the threshold configuration of the
    Classification Engine (sections 4.5 and 9), whose Python source is not in
    the tree: a tolerance band on the deviation, an occupancy threshold, a
    temperature comfort band, and the fraction of the excess counted as
    savings for POSSIBLE_WASTE. *)
Record ThresholdConfig := {
  tolerance_pct : Q;
  occupancy_high_pct : Q;
  comfort_min_c : Q;
  comfort_max_c : Q;
  possible_waste_fraction : Q;
}.

(** Modelled from the spec: the enriched record of section 4.4, an event
    joined with the block's baseline and the latest tariff and carbon
    intensity. *)
Record EnrichedRecord := {
  block_id : string;
  block_label : string;
  timestamp : Z;
  energy_kwh : Q;
  baseline_kwh : Q;
  occupancy_pct : Q;
  temperature_c : Q;
  tariff_inr_per_kwh : Q;
  carbon_intensity_kg_per_kwh : Q;
}.

(** Modelled from the spec: [deviation_pct] of section 3,
    [(energy_kwh - baseline_kwh) / baseline_kwh * 100]. *)
Definition deviation_pct (r : EnrichedRecord) : Q :=
  (energy_kwh r - baseline_kwh r) / baseline_kwh r * 100.

(** Modelled from the spec: the deviation is small, within the tolerance
    band (section 4.5, rule 1). *)
Definition within_tolerance (cfg : ThresholdConfig) (deviation : Q) : bool :=
  Qle_bool (Qabs deviation) (tolerance_pct cfg).

(** Modelled from the spec: occupancy is high above the configured
    threshold (section 4.5, rule 2). *)
Definition occupancy_high (cfg : ThresholdConfig) (occupancy : Q) : bool :=
  negb (Qle_bool occupancy (occupancy_high_pct cfg)).

(** Modelled from the spec: temperature is extreme outside the comfort band
    (section 4.5, rule 2). *)
Definition temperature_extreme (cfg : ThresholdConfig) (temperature : Q)
    : bool :=
  negb (Qle_bool (comfort_min_c cfg) temperature
        && Qle_bool temperature (comfort_max_c cfg)).

(** Modelled from the spec: the deviation is positive, energy above the
    baseline (section 4.5, rules 2 and 3). *)
Definition above_baseline (deviation : Q) : bool :=
  negb (Qle_bool deviation 0).

(** Modelled from the spec: the category of the templated [root_cause]
    explanation, naming the signals that decided. *)
Inductive RootCause :=
  | WithinTolerance
  | JustifiedByOccupancy
  | JustifiedByTemperature
  | JustifiedByOccupancyAndTemperature
  | UnjustifiedExcess
  | Ambiguous.

(** Modelled from the spec: the decision policy of section 4.5, its four
    rules tried in order, first match wins.  "High occupancy AND/OR extreme
    temperature" is read as either or both; low occupancy is occupancy that
    is not high. *)
Definition policy (cfg : ThresholdConfig) (deviation occupancy temperature : Q)
    : WasteClass * RootCause :=
  let high := occupancy_high cfg occupancy in
  let extreme := temperature_extreme cfg temperature in
  if within_tolerance cfg deviation then (NORMAL, WithinTolerance)
  else if above_baseline deviation && (high || extreme) then
    (NECESSARY,
     if high && extreme then JustifiedByOccupancyAndTemperature
     else if high then JustifiedByOccupancy
     else JustifiedByTemperature)
  else if above_baseline deviation && negb high && negb extreme then
    (WASTE, UnjustifiedExcess)
  else (POSSIBLE_WASTE, Ambiguous).

(** Modelled from the spec: the output of [classify] (section 4.5). *)
Record Decision := {
  status : WasteClass;
  savings_kwh : Q;
  cost_inr : Q;
  waste_cost_inr : Q;
  co2_kg : Q;
  root_cause : RootCause;
}.

(** Modelled from the spec: the savings of section 4.5, nothing for NORMAL
    and NECESSARY, the full excess for WASTE, a fraction of it for
    POSSIBLE_WASTE. *)
Definition savings_of (cfg : ThresholdConfig) (r : EnrichedRecord)
    (s : WasteClass) : Q :=
  match s with
  | NORMAL | NECESSARY => 0
  | WASTE => energy_kwh r - baseline_kwh r
  | POSSIBLE_WASTE =>
      possible_waste_fraction cfg * (energy_kwh r - baseline_kwh r)
  end.

(** Modelled from the spec: [classify] of section 4.5, with
    [cost_inr = energy_kwh * tariff], [waste_cost_inr = savings_kwh * tariff]
    and [co2_kg = savings_kwh * carbon_intensity]. *)
Definition classify (cfg : ThresholdConfig) (r : EnrichedRecord) : Decision :=
  let verdict :=
    policy cfg (deviation_pct r) (occupancy_pct r) (temperature_c r) in
  let savings := savings_of cfg r verdict.1 in
  {| status := verdict.1;
     savings_kwh := savings;
     cost_inr := energy_kwh r * tariff_inr_per_kwh r;
     waste_cost_inr := savings * tariff_inr_per_kwh r;
     co2_kg := savings * carbon_intensity_kg_per_kwh r;
     root_cause := verdict.2 |}.



End Engine.

Import BlockStatusCards.

(** ** Sample inputs *)

Module Samples.

(** A stand-in for [Math.sin], exact at 0, and a clock, for properties that
    hold whatever the sine and the time. *)
Definition sine (a : number) : number :=
  match a with
  | Fin _ => Fin 0
  | _ => NaN
  end.

Definition clock (k : nat) : Z := (1700000000000 + Z.of_nat k)%Z.

Definition noProps : Props :=
  {| blocks := None; title := None; subtitle := None; liveLabel := None;
     showLiveIndicator := None; totalSavingsOverride := None |}.

Definition emptyFeed : Props :=
  {| blocks := Some []; title := None; subtitle := None; liveLabel := None;
     showLiveIndicator := None; totalSavingsOverride := None |}.

Definition labBlock (status : WasteClass) (label : string) : BlockStatus.t :=
  {| BlockStatus.block_id := label; BlockStatus.block_label := label;
     BlockStatus.energy_kwh := Fin 48.7; BlockStatus.baseline_kwh := Fin 36.0;
     BlockStatus.occupancy := Fin 20; BlockStatus.temperature := Fin 33;
     BlockStatus.status := status; BlockStatus.savings_kwh := Fin 12.7;
     BlockStatus.deviation_pct := Fin 35.3;
     BlockStatus.tariff_inr_per_kwh := Fin 8;
     BlockStatus.cost_inr := Fin 389.6; BlockStatus.waste_cost_inr := Fin 101.6;
     BlockStatus.carbon_intensity_kg_per_kwh := Fin 0.7;
     BlockStatus.co2_kg := Fin 8.89; BlockStatus.root_cause := "";
     BlockStatus.updated_at := ""; BlockStatus.history := None |}.

Definition zeroTotals : DashboardTotals.t :=
  DashboardTotals.mk (Fin 0) (Fin 0) (Fin 0) (Fin 0) (Fin 0) (Fin 0) (Fin 0)
    (Fin 0) (Fin 0) (Fin 0).

Definition feed (stream : StreamStatus) (blocks : list BlockStatus.t)
    : DashboardSnapshot.t :=
  {| DashboardSnapshot.generated_at := "";
     DashboardSnapshot.org_name := "EnergySense Campus";
     DashboardSnapshot.blocks := blocks;
     DashboardSnapshot.totals := zeroTotals;
     DashboardSnapshot.pathway_state :=
       Some (PathwayState.mk stream None (Fin 0) (Fin 0) (Fin 0)) |}.

(** A page that has received a snapshot a second ago over a live stream. *)
Definition page (s : option DashboardSnapshot.t) : Dashboard.State :=
  {| Dashboard.data := s; Dashboard.fallback := None;
     Dashboard.status := "live";
     Dashboard.lastMessageAt := Some 1700000000000%Z;
     Dashboard.now := 1700000001000%Z |}.

(** Five history points, fifteen seconds apart. *)
Definition arrival (k : Z) : BlockHistoryPoint.t :=
  BlockHistoryPoint.mk (1700000000000 + 15000 * k)%Z (Fin 1.5) (Fin 35.5)
    (Fin 35).



(** Thresholds: a 5 % tolerance band, occupancy high above 50 %, a comfort
    band of 18 to 30 degrees, half of the excess for POSSIBLE_WASTE. *)
Definition thresholds : Engine.ThresholdConfig :=
  {| Engine.tolerance_pct := 5; Engine.occupancy_high_pct := 50;
     Engine.comfort_min_c := 18; Engine.comfort_max_c := 30;
     Engine.possible_waste_fraction := 1 # 2 |}.


Definition event (id : string) (energy baseline occupancy temperature : Q)
    : Engine.EnrichedRecord :=
  {| Engine.block_id := id; Engine.block_label := id;
     Engine.timestamp := 1700000000000;
     Engine.energy_kwh := energy; Engine.baseline_kwh := baseline;
     Engine.occupancy_pct := occupancy; Engine.temperature_c := temperature;
     Engine.tariff_inr_per_kwh := 8.0;
     Engine.carbon_intensity_kg_per_kwh := 0.7 |}.

(** Scenarios A and B of the specification. *)
Definition scenarioA : Engine.EnrichedRecord := event "B1" 55.1 35.0 12 26.

Definition fourBlocks : list BlockStatus.t :=
  [ labBlock NORMAL "C"; labBlock WASTE "F"; labBlock NECESSARY "A";
    labBlock POSSIBLE_WASTE "D" ].

End Samples.

(** ** BlockDetailModal.tsx *)

Module BlockDetailModal.

Definition statusTone (s : WasteClass) : string :=
  match s with
  | NORMAL => "text-neon-green"
  | NECESSARY => "text-primary"
  | POSSIBLE_WASTE => "text-warning"
  | WASTE => "text-destructive"
  end.

Definition statusStroke (s : WasteClass) : string :=
  match s with
  | NORMAL => "hsl(var(--neon-green))"
  | NECESSARY => "hsl(var(--primary))"
  | POSSIBLE_WASTE => "hsl(var(--warning))"
  | WASTE => "hsl(var(--neon-red))"
  end.

(** [block.history ?? []] *)
Definition history (block : BlockData.t) : list BlockHistoryPoint.t :=
  default [] (BlockData.history block).

Definition deviationValues (block : BlockData.t) : list number :=
  BlockHistoryPoint.deviation_pct <$> history block.

(** [l.slice(-n)]: the last [n] elements, all of them when there are fewer. *)
Definition slice_last {A : Type} (n : nat) (l : list A) : list A :=
  drop (length l - n) l.

(** [history.slice(-6).reverse()] *)
Definition latestPoints (block : BlockData.t) : list BlockHistoryPoint.t :=
  reverse (slice_last 6 (history block)).

Definition avgDeviation (block : BlockData.t) : number :=
  let values := deviationValues block in
  if (length values =? 0)%nat then Fin 0
  else div (foldl (fun sum val => add sum val) (Fin 0) values)
           (of_nat (length values)).

(** What the dialog displays of the block; the LSTM captions are left out.
    An empty [latest] is rendered as "No recent activity yet.". *)
Record View := {
  heading : string;
  tone : string;
  latest_deviation : option number;
  energy_shown : number;
  baseline_shown : number;
  savings_shown : number;
  avgDeviation_shown : number;
  chart : Sparkline.view;
  latest : list BlockHistoryPoint.t;
}.

(** The component: nothing without a block. *)
Definition BlockDetailModal (block : option BlockData.t) : option View :=
  match block with
  | None => None
  | Some block =>
      Some {| heading := BlockData.block block;
              tone := statusTone (BlockData.status block);
              latest_deviation := toFixed 1 <$> BlockData.deviation_pct block;
              energy_shown := toFixed 1 (BlockData.energy_kwh block);
              baseline_shown := toFixed 1 (BlockData.baseline block);
              savings_shown := toFixed 1 (BlockData.savings block);
              avgDeviation_shown := toFixed 1 (avgDeviation block);
              chart :=
                Sparkline.Sparkline (deviationValues block)
                  (statusStroke (BlockData.status block)) (Fin 70);
              latest := latestPoints block |}
  end.

End BlockDetailModal.

(** ** The Booting page *)

Module Booting.


(** The progress the page starts with, before the first tick. *)
Definition initialProgress : number := Fin 5.


End Booting.

(** ** The Dashboard page: effects, lookups and panels *)

Module TwinEffect.
Record t := mk {
  effect_id : string;
  action_id : option string;
  block_id : string;
  block_label : string;
  control_type : string;
  target_reduction_pct : number;
  progress_pct : number;
  stage : string;
  remaining_seconds : number;
  source : string;
}.
End TwinEffect.

Module DashboardPage.

(** What the stream hook returns on a render. *)
Record HookOutput := {
  hook_data : option DashboardSnapshot.t;
  hook_status : string;
  hook_lastMessageAt : option Z;
  hook_now : Z;
}.

(** The effect on [data]: [if (data) setFallback(data)]. *)
Definition rememberSnapshot (st : Dashboard.State) : Dashboard.State :=
  {| Dashboard.data := Dashboard.data st;
     Dashboard.fallback :=
       match Dashboard.data st with
       | Some d => Some d
       | None => Dashboard.fallback st
       end;
     Dashboard.status := Dashboard.status st;
     Dashboard.lastMessageAt := Dashboard.lastMessageAt st;
     Dashboard.now := Dashboard.now st |}.

(** The next render: the pending effect has run and the hook returns
    [hook]. *)
Definition nextRender (st : Dashboard.State) (hook : HookOutput)
    : Dashboard.State :=
  {| Dashboard.data := hook_data hook;
     Dashboard.fallback := Dashboard.fallback (rememberSnapshot st);
     Dashboard.status := hook_status hook;
     Dashboard.lastMessageAt := hook_lastMessageAt hook;
     Dashboard.now := hook_now hook |}.

Definition renders (st : Dashboard.State) (hooks : list HookOutput)
    : Dashboard.State :=
  foldl nextRender st hooks.

(** [blockMap]: a Map filled by [if (block.id) map.set(block.id, block)]. *)
Definition setBlock (map : gmap string BlockData.t) (block : BlockData.t)
    : gmap string BlockData.t :=
  match BlockData.id block with
  | Some id => if String.eqb id "" then map else <[id := block]> map
  | None => map
  end.

Definition blockMap (st : Dashboard.State) : gmap string BlockData.t :=
  foldl setBlock ∅ (Dashboard.blocks st).

(** A click on a heatmap tile: [blockMap.get(block.block_id)], the details
    opened when there are some. *)
Definition tileDetails (st : Dashboard.State) (block : BlockStatus.t)
    : option BlockData.t :=
  blockMap st !! BlockStatus.block_id block.

(** The Waste Heatmap panel. *)
Inductive Heatmap :=
  | HeatmapWaiting
  | Tiles (blocks : list BlockStatus.t).

Definition wasteHeatmap (st : Dashboard.State) : Heatmap :=
  match Dashboard.snapshot st with
  | None => HeatmapWaiting
  | Some s =>
      if (length (DashboardSnapshot.blocks s) =? 0)%nat then HeatmapWaiting
      else Tiles (DashboardSnapshot.blocks s)
  end.

(** The Hotspot Insights panel. *)
Inductive Insights :=
  | InsightsWaiting
  | NoCriticalWaste
  | HotspotList (blocks : list BlockStatus.t).

Definition hotspotInsights (st : Dashboard.State) : Insights :=
  if Dashboard.waitingForData st then InsightsWaiting
  else if (length (Dashboard.hotspots st) =? 0)%nat then NoCriticalWaste
  else HotspotList (Dashboard.hotspots st).

(** handleProposeAdr: [hotspots[0]], whose [block_id] goes into the request
    when there is one. *)
Definition proposalCandidate (st : Dashboard.State) : option BlockStatus.t :=
  Dashboard.hotspots st !! 0%nat.

Definition proposalPayload (st : Dashboard.State) : option string :=
  BlockStatus.block_id <$> proposalCandidate st.

(** The effect that keeps [selectedTwinBlockId] on a block of the snapshot:
    the value of the state after the effect ran with [selected]. *)
Definition selectTwinBlock (st : Dashboard.State) (selected : string)
    : string :=
  match DashboardSnapshot.blocks <$> Dashboard.snapshot st with
  | None | Some [] => ""
  | Some (first :: rest) =>
      if String.eqb selected ""
         || negb (existsb
                    (fun block => String.eqb (BlockStatus.block_id block) selected)
                    (first :: rest))
      then BlockStatus.block_id first
      else selected
  end.

(** [snapshot?.blocks.find((block) => block.block_id === selectedTwinBlockId)
    ?? null] *)
Definition selectedTwinBlock (st : Dashboard.State) (selected : string)
    : option BlockStatus.t :=
  Dashboard.snapshot st ≫= fun s =>
    find (fun block => String.eqb (BlockStatus.block_id block) selected)
         (DashboardSnapshot.blocks s).

(** [twinEffectsByActionId]: effects grouped by [action_id], those without
    one skipped. *)
Definition addEffect (map : gmap string (list TwinEffect.t))
    (effect : TwinEffect.t) : gmap string (list TwinEffect.t) :=
  match TwinEffect.action_id effect with
  | Some id =>
      if String.eqb id "" then map
      else <[id := (default [] (map !! id) ++ [effect])%list]> map
  | None => map
  end.

Definition twinEffectsByActionId (twinEffects : list TwinEffect.t)
    : gmap string (list TwinEffect.t) :=
  foldl addEffect ∅ twinEffects.

(** [twinEffectsByActionId.get(action.id) ?? []] *)
Definition actionTwinEffects (twinEffects : list TwinEffect.t)
    (action_id : string) : list TwinEffect.t :=
  default [] (twinEffectsByActionId twinEffects !! action_id).

End DashboardPage.

(** ** More sample inputs *)

Module MoreSamples.


(** The same row with a history of eight points. *)
Definition longHistory : BlockData.t :=
  BlockData.mk (Some "B8") "Block H" (Fin 30) (Fin 28) (Fin 55) (Fin 29)
    NORMAL (Fin 0) (Some (Fin 7.1)) None None None None None None
    (Some (Samples.arrival <$> [1; 2; 3; 4; 5; 6; 7; 8]%Z)).

(** Three renders: a snapshot arrives, then the stream drops twice. *)
Definition hook (data : option DashboardSnapshot.t) (status : string)
    : DashboardPage.HookOutput :=
  {| DashboardPage.hook_data := data; DashboardPage.hook_status := status;
     DashboardPage.hook_lastMessageAt := Some 1700000000000%Z;
     DashboardPage.hook_now := 1700000009000%Z |}.

Definition dropOut : list DashboardPage.HookOutput :=
  [ hook (Some (Samples.feed LIVE Samples.fourBlocks)) "live";
    hook None "reconnecting"; hook None "error" ].

(** A stale feed: blocks are there, the engine reports no data. *)
Definition staleFeed : Dashboard.State :=
  Samples.page (Some (Samples.feed WAITING_FOR_DATA Samples.fourBlocks)).

(** Three twin effects, two of one action and one without an action. *)
Definition twinEffect (effect_id : string) (action_id : option string)
    : TwinEffect.t :=
  TwinEffect.mk effect_id action_id "B1" "Block A" "HVAC_ECO" (Fin 12)
    (Fin 40) "RAMP" (Fin 300) "twin".

Definition threeEffects : list TwinEffect.t :=
  [ twinEffect "e1" (Some "a1"); twinEffect "e2" None;
    twinEffect "e3" (Some "a1") ].

End MoreSamples.

(** * The same code in binary64

    The definitions above compute with exact rationals.  Where a claim
    depends on what the arithmetic of a JavaScript engine really returns (the
    rounding of a sum, the overflow of a difference, the decimal digits of
    [toFixed]), the same source expressions are evaluated here on IEEE-754
    binary64 numbers, the kernel's primitive floats, whose [+], [-], [*] and
    [/] round to nearest, ties to even, as ECMAScript prescribes. *)

Module Binary64.

Import PrimFloat SpecFloat FloatOps.
#[local] Set Warnings "-inexact-float".
Local Open Scope float_scope.

(** ** Numbers *)

(** The number an integer stands for: the nearest binary64 number. *)
Definition of_Z (n : Z) : float :=
  SF2Prim (binary_normalize prec emax n 0 false).

(** A number from an array index or a length. *)
Definition of_nat (n : nat) : float := of_Z (Z.of_nat n).

(** The nearest binary64 number to the fraction [n / d], negated when
    [negative]: what [Number] returns on a decimal string. *)
Definition of_ratio (negative : bool) (n d : positive) : float :=
  SF2Prim (SFdiv prec emax (S754_finite negative n 0) (S754_finite false d 0)).

(** The exact value of a finite number, as a fraction in lowest terms; both
    zeros are 0. *)
Definition value (x : float) : option Q :=
  match Prim2SF x with
  | S754_zero _ => Some 0%Q
  | S754_finite negative m e =>
      let magnitude :=
        match e with
        | Zneg p => (Zpos m # 2 ^ p)%Q
        | _ => inject_Z (Zpos m * 2 ^ e)
        end in
      Some (Qred (if negative then Qopp magnitude else magnitude))
  | S754_infinity _ | S754_nan => None
  end.

(** The sum, as a rational, of the exact values of finite numbers. *)
Fixpoint exact_sum (l : list float) : option Q :=
  match l with
  | [] => Some 0%Q
  | x :: l' =>
      match value x, exact_sum l' with
      | Some q, Some s => Some (q + s)%Q
      | _, _ => None
      end
  end.

(** [a + b] is computed without rounding: the result is the exact sum. *)
Definition exact_add (a b : float) : bool :=
  match value a, value b, value (a + b) with
  | Some x, Some y, Some z => Qeq_bool z (x + y)
  | _, _, _ => false
  end.

(** No addition rounds when [l] is added, left to right, to [sum]. *)
Fixpoint no_rounding (sum : float) (l : list float) : bool :=
  match l with
  | [] => true
  | x :: l' => exact_add sum x && no_rounding (sum + x) l'
  end.

(** ToBoolean on a number: both zeros and NaN are falsy. *)
Definition truthy (a : float) : bool := negb (is_zero a || is_nan a).

(** [a || b] on numbers. *)
Definition or_else (a b : float) : float := if truthy a then a else b.

(** [Math.max] and [Math.min] of two arguments: NaN as soon as one is NaN,
    and +0 counted above -0. *)
Definition max2 (a b : float) : float :=
  if is_nan a || is_nan b then nan
  else if a <? b then b
  else if b <? a then a
  else if get_sign a then b else a.

Definition min2 (a b : float) : float :=
  if is_nan a || is_nan b then nan
  else if b <? a then b
  else if a <? b then a
  else if get_sign a then a else b.

Definition Math_max (values : list float) : float :=
  foldr max2 neg_infinity values.

Definition Math_min (values : list float) : float :=
  foldr min2 infinity values.

(** The string [toFixed] returns: a decimal with [digits] digits after the
    point, given by its sign and by the integer [n] of [n / 10^digits], or,
    from 1e21 on and on the non-finite values, the string of the number
    itself. *)
Inductive shown :=
  | Decimal (negative : bool) (n : Z) (digits : nat)
  | Literal (x : float).

(** [x.toFixed(digits)]: ECMAScript takes the integer [n] for which
    [n / 10^digits] is nearest to the exact magnitude of [x], the larger one
    when two are as near, and writes "-" before it when [x < 0]. *)
Definition toFixed (digits : nat) (x : float) : shown :=
  match value x with
  | None => Literal x
  | Some q =>
      if Qle_bool (inject_Z (10 ^ 21)) (Qabs q) then Literal x
      else Decimal (x <? 0)
             (Qfloor (Qabs q * inject_Z (10 ^ Z.of_nat digits) + (1 # 2)))
             digits
  end.

(** [Number(s)] on a string of [toFixed]. *)
Definition Number (s : shown) : float :=
  match s with
  | Literal x => x
  | Decimal negative (Zpos n) digits =>
      of_ratio negative n (Z.to_pos (10 ^ Z.of_nat digits))
  | Decimal negative _ _ => if negative then neg_zero else zero
  end.

(** ** Sparkline.tsx *)

Module Sparkline.

Inductive view :=
  | NoActivityYet
  | Polyline (width height : float) (stroke : string)
             (points : list (float * float)).

(** What a call of the component does: it returns a view, or the spread
    call [Math.max(...values)] fails. *)
Inductive outcome :=
  | Rendered (v : view)
  | RangeError.

Definition width : float := 100.

(** [max - min || 1] *)
Definition range (values : list float) : float :=
  or_else (Math_max values - Math_min values) 1.

Definition point (values : list float) (height : float)
    (index : nat) (value : float) : float * float :=
  let min := Math_min values in
  let x := of_nat index / of_nat (length values - 1) * width in
  let y := height - (value - min) / range values * height in
  (x, y).

Definition points (values : list float) (height : float)
    : list (float * float) :=
  imap (point values height) values.

(** The component.  [Math.max(...values)] passes every value as an argument
    of one call, and an engine accepts only so many: beyond, the call throws
    a RangeError.  ECMAScript leaves that number to the engine; the model
    takes it as the parameter [max_arguments]. *)
Definition Sparkline (max_arguments : N) (values : list float)
    (stroke : string) (height : float) : outcome :=
  if (length values <? 2)%nat then Rendered NoActivityYet
  else if (max_arguments <? N.of_nat (length values))%N then RangeError
  else Rendered (Polyline width height stroke (points values height)).

End Sparkline.

(** ** BlockStatusCards.tsx *)

Module BlockHistoryPoint.
Record t := mk {
  ts : Z;
  deviation_pct : float;
  energy_kwh : float;
  baseline_kwh : float;
}.
End BlockHistoryPoint.

Module BlockData.
Record t := mk {
  id : option string;
  block : string;
  energy_kwh : float;
  baseline : float;
  occupancy : float;
  temperature : float;
  status : WasteClass;
  savings : float;
  deviation_pct : option float;
  tariff_inr_per_kwh : option float;
  cost_inr : option float;
  waste_cost_inr : option float;
  carbon_intensity_kg_per_kwh : option float;
  co2_kg : option float;
  root_cause : option string;
  history : option (list BlockHistoryPoint.t);
}.
End BlockData.

Module BlockStatusCards.

(** The props that decide the rows and the total. *)
Record Props := {
  blocks : option (list BlockData.t);
  totalSavingsOverride : option float;
}.

(** The numbers one card displays. *)
Record Card := {
  key : string * nat;
  row : BlockData.t;
  deviation : float;
  deviation_shown : shown;
  deviation_destructive : bool;
  savings_shown : shown;
}.

Inductive Grid :=
  | Placeholder (text : string)
  | CardGrid (cards : list Card).

Record View := {
  totalSavings : float;
  totalSavings_shown : shown;
  grid : Grid;
}.

Section Env.

(** [Math.sin], and the successive readings of [Date.now()]. *)
Variable Math_sin : float -> float.
Variable Date_now : nat -> Z.

(** The locals [deviation] and [energy] of generateHistory at index [i]. *)
Definition deviation_at (variance seed : float) (i : nat) : float :=
  Math_sin (of_nat i / 2 + seed) * variance + variance / 3.

Definition energy_at (baseline variance seed : float) (i : nat) : float :=
  baseline * (1 + deviation_at variance seed i / 100).

(** [now] is the reading of [Date.now()] taken by the call, a whole number
    of milliseconds that binary64 subtracts from exactly. *)
Definition generateHistory (now : Z) (baseline variance seed : float)
    : list BlockHistoryPoint.t :=
  (fun i : nat =>
     BlockHistoryPoint.mk
       (now - (16 - Z.of_nat i) * 15000)%Z
       (Number (toFixed 1 (deviation_at variance seed i)))
       (Number (toFixed 2 (energy_at baseline variance seed i)))
       baseline) <$> seq 0 16.

Definition mock (k : nat) (block : string)
    (energy_kwh baseline occupancy temperature : float) (status : WasteClass)
    (savings variance seed : float) : BlockData.t :=
  BlockData.mk None block energy_kwh baseline occupancy temperature status
    savings None None None None None None None
    (Some (generateHistory (Date_now k) baseline variance seed)).

Definition mockBlocks : list BlockData.t :=
  [ mock 0 "Block A — Admin" 42.3 38.5 85 34 NECESSARY 0 10 1;
    mock 1 "Block B — CS Dept" 55.1 35.0 12 26 WASTE 20.1 18 2;
    mock 2 "Block C — Library" 30.2 28.0 60 30 NORMAL 2.2 6 3;
    mock 3 "Block D — Labs" 48.7 36.0 20 33 POSSIBLE_WASTE 12.7 14 4;
    mock 4 "Block E — Hostel" 25.4 24.0 70 29 NORMAL 1.4 5 5;
    mock 5 "Block F — Canteen" 62.0 34.0 8 25 WASTE 28.0 20 6 ].

Definition hasLiveData (p : Props) : bool :=
  match blocks p with
  | Some bs => (0 <? length bs)%nat
  | None => false
  end.

Definition rows (p : Props) : list BlockData.t :=
  if hasLiveData p then default [] (blocks p)
  else if bool_decide (is_Some (blocks p)) then []
  else mockBlocks.

(** [rows.reduce((sum, b) => sum + b.savings, 0)] unless overridden. *)
Definition computeTotalSavings (p : Props) : float :=
  match totalSavingsOverride p with
  | Some override => override
  | None => foldl (fun sum b => sum + BlockData.savings b) 0 (rows p)
  end.

(** [block.deviation_pct ?? ((block.energy_kwh - block.baseline) /
    block.baseline * 100)] *)
Definition computeDeviation (block : BlockData.t) : float :=
  match BlockData.deviation_pct block with
  | Some d => d
  | None =>
      (BlockData.energy_kwh block - BlockData.baseline block)
      / BlockData.baseline block * 100
  end.

Definition card (i : nat) (block : BlockData.t) : Card :=
  let deviation := computeDeviation block in
  {| key := (BlockData.block block, i);
     row := block;
     deviation := deviation;
     deviation_shown := toFixed 1 deviation;
     deviation_destructive := 15 <? deviation;
     savings_shown := toFixed 1 (BlockData.savings block) |}.

Definition BlockStatusCards (p : Props) : View :=
  let rows := rows p in
  let totalSavings := computeTotalSavings p in
  {| totalSavings := totalSavings;
     totalSavings_shown := toFixed 1 totalSavings;
     grid :=
       if (length rows =? 0)%nat
       then Placeholder "Waiting for live block data..."
       else CardGrid (imap card rows) |}.

End Env.

End BlockStatusCards.

(** ** Sample inputs *)

Module Samples.

(** A stand-in for [Math.sin], exact at 0, and a clock. *)
Definition sine (a : float) : float := if is_finite a then 0 else nan.

Definition clock (k : nat) : Z := (1700000000000 + Z.of_nat k)%Z.

Definition noProps : BlockStatusCards.Props :=
  {| BlockStatusCards.blocks := None;
     BlockStatusCards.totalSavingsOverride := None |}.

(** A live row, by its label, energy, baseline, savings and the
    [deviation_pct] it carries, if any. *)
Definition liveRow (label : string) (energy_kwh baseline savings : float)
    (deviation_pct : option float) : BlockData.t :=
  BlockData.mk (Some label) label energy_kwh baseline 40 27 WASTE savings
    deviation_pct None None None None None None None.

Definition feedOf (rows : list BlockData.t) : BlockStatusCards.Props :=
  {| BlockStatusCards.blocks := Some rows;
     BlockStatusCards.totalSavingsOverride := None |}.



(** Three rows whose savings a left-to-right sum absorbs, and three whose
    savings it adds without rounding. *)
Definition absorbed : list BlockData.t :=
  [ liveRow "B1" 0 0 1e16 None; liveRow "B2" 0 0 1 None;
    liveRow "B3" 0 0 (-1e16) None ].

Definition dyadic : list BlockData.t :=
  [ liveRow "B1" 0 0 0.5 None; liveRow "B2" 0 0 12.25 None;
    liveRow "B3" 0 0 2 None ].


(** An engine that accepts 65535 arguments, and a list one longer. *)
Definition engineLimit : N := 65535.


End Samples.

End Binary64.

(** * Properties *)

(** ** Numbers *)

Example toFixed_rounds_half_away_from_zero :
  eqv (toFixed 0 (Fin 2.5)) (Fin 3) /\
  eqv (toFixed 0 (Fin (-2.5))) (Fin (-3)) /\
  eqv (toFixed 2 (Fin 1.234)) (Fin 1.23) /\
  eqv (toFixed 1 (Fin 57.45)) (Fin 57.5) /\
  toFixed 1 NaN = NaN /\ toFixed 2 Infinity = Infinity.
Proof. repeat split. Qed.

Example division_by_zero_is_not_finite :
  div (Fin 1) (Fin 0) = Infinity /\
  div (Fin (-1)) (Fin 0) = NegInfinity /\
  div (Fin 0) (Fin 0) = NaN /\
  sub Infinity Infinity = NaN /\
  or_else (Fin 0) (Fin 1) = Fin 1 /\
  or_else NaN (Fin 1) = Fin 1 /\
  or_else Infinity (Fin 1) = Infinity.
Proof. repeat split. Qed.


Lemma truthy_nonzero (a : number) :
  truthy a = true ->
  match a with Fin x => ~ (x == 0)%Q | Inf _ => True | NaN => False end.
Proof.
  destruct a as [x| |]; simpl; [|done|done].
  intros H Hx. apply Qeq_bool_iff in Hx. rewrite Hx in H. discriminate.
Qed.

(** ** The grid of BlockStatusCards *)

Section Cards.

Variable Math_sin : number -> number.
Variable Date_now : nat -> Z.

Abbreviation rows' := (rows Math_sin Date_now).
Abbreviation render := (BlockStatusCards Math_sin Date_now).

Lemma grid_cards (p : Props) :
  rows' p <> [] -> grid (render p) = CardGrid (imap card (rows' p)).
Proof.
  intros Hrows. unfold BlockStatusCards. simpl.
  destruct (rows' p) as [|b bs] eqn:E; [done|reflexivity].
Qed.

Lemma grid_card_at (p : Props) (i : nat) (b : BlockData.t) :
  rows' p !! i = Some b ->
  exists cards,
    grid (render p) = CardGrid cards /\ cards !! i = Some (card i b).
Proof.
  intros Hi. exists (imap card (rows' p)). split.
  - apply grid_cards. intros E. rewrite E in Hi. discriminate.
  - rewrite list_lookup_imap, Hi. reflexivity.
Qed.

End Cards.

(** A row that carries [deviation_pct] is shown that value. *)
Lemma deviation_carried (i : nat) (b : BlockData.t) (d : number) :
  BlockData.deviation_pct b = Some d -> deviation (card i b) = d.
Proof. intros Hd. simpl. unfold computeDeviation. rewrite Hd. reflexivity. Qed.

(** The rows of the cards are the rows displayed. *)
Lemma imap_card_rows (bs : list BlockData.t) :
  row <$> imap card bs = bs.
Proof.
  rewrite fmap_imap.
  induction bs as [|b bs IH] using rev_ind; [reflexivity|].
  rewrite imap_app, IH. reflexivity.
Qed.

(** ** The cards and the total in binary64 *)

Section Binary64Cards.

Import PrimFloat Binary64 Binary64.BlockStatusCards.
#[local] Set Warnings "-inexact-float".
Local Open Scope float_scope.

(** [toFixed] rounds the exact value of the binary64 number, which is not
    always the decimal it was written as: 0.15 and 2.005 lie below the
    decimals, 0.125 is a tie and goes up. *)
Example toFixed_rounds_the_binary64_value :
  toFixed 1 0.15 = Decimal false 1 1 /\
  toFixed 2 2.005 = Decimal false 200 2 /\
  toFixed 2 0.125 = Decimal false 13 2 /\
  toFixed 0 2.5 = Decimal false 3 0 /\
  toFixed 0 (-2.5) = Decimal true 3 0 /\
  toFixed 1 (-0.04) = Decimal true 0 1 /\
  toFixed 1 nan = Literal nan /\
  toFixed 2 1e21 = Literal 1e21 /\
  Number (toFixed 2 0.125) = 0.13 /\
  Number (toFixed 2 2.005) = 2 /\
  Number (toFixed 2 39.78333333333334) = 39.78.
Proof. repeat split. Qed.

Example binary64_sums_round :
  0.1 + 0.2 = 0.30000000000000004 /\
  1e16 + 1 = 1e16 /\
  exact_add 1e16 1 = false /\
  exact_add 0.5 12.25 = true /\
  exists q : Q, value 0.1 = Some q /\ (1 # 10 < q)%Q.
Proof. repeat split. eexists. split; reflexivity. Qed.


Lemma binary64_imap_card_rows (bs : list BlockData.t) :
  row <$> imap card bs = bs.
Proof.
  rewrite fmap_imap.
  induction bs as [|b bs IH] using rev_ind; [reflexivity|].
  rewrite imap_app, IH. reflexivity.
Qed.




(** *** The total *)

Lemma binary64_foldl_savings (bs : list BlockData.t) (sum : float) :
  foldl (fun sum b => sum + BlockData.savings b) sum bs
  = foldl add sum (BlockData.savings <$> bs).
Proof.
  revert sum. induction bs as [|b bs IH]; intros sum; [reflexivity|].
  simpl. apply IH.
Qed.

(** A left-to-right sum in which no addition rounds is the exact sum. *)
Lemma foldl_add_exact (l : list float) (sum : float) (a : Q) :
  value sum = Some a ->
  no_rounding sum l = true ->
  exists total s : Q,
    value (foldl add sum l) = Some total /\
    exact_sum l = Some s /\
    (total == a + s)%Q.
Proof.
  revert sum a. induction l as [|x l IH]; intros sum a Hsum Hexact.
  - exists a, 0%Q. split; [exact Hsum|]. split; [reflexivity|]. ring.
  - cbn [no_rounding] in Hexact. apply andb_true_iff in Hexact as [Hx Hl].
    unfold exact_add in Hx. rewrite Hsum in Hx.
    destruct (value x) as [y|] eqn:Hy; [|discriminate].
    destruct (value (sum + x)) as [z|] eqn:Hz; [|discriminate].
    apply Qeq_bool_iff in Hx.
    destruct (IH (sum + x) z Hz Hl) as (total & s & Htotal & Hs & Heq).
    exists total, (y + s)%Q. split; [exact Htotal|]. split.
    + cbn [exact_sum]. rewrite Hy, Hs. reflexivity.
    + rewrite Heq, Hx. ring.
Qed.

(** C6, as the code has it.  Without a [totalSavingsOverride], the Total
    Potential Savings of BlockStatusCards is computed afresh from the rows
    it displays, which are the rows of the grid: their [savings] are added
    to 0 in row order, each addition rounded to binary64, and the banner
    prints the result with one decimal.  When no addition rounds, the total
    is the exact sum of the savings. *)
Theorem total_savings_recomputed
    (Math_sin : float -> float) (Date_now : nat -> Z) (p : Props) :
  totalSavingsOverride p = None ->
  let view := BlockStatusCards Math_sin Date_now p in
  let displayed := rows Math_sin Date_now p in
  totalSavings view
    = foldl (fun sum b => sum + BlockData.savings b) 0 displayed /\
  totalSavings_shown view = toFixed 1 (totalSavings view) /\
  match grid view with
  | CardGrid cards => row <$> cards = displayed
  | Placeholder _ => displayed = []
  end /\
  (no_rounding 0 (BlockData.savings <$> displayed) = true ->
   exists total sum : Q,
     value (totalSavings view) = Some total /\
     exact_sum (BlockData.savings <$> displayed) = Some sum /\
     (total == sum)%Q).
Proof.
  intros Hnone view displayed.
  assert (Htotal : totalSavings view
    = foldl (fun sum b => sum + BlockData.savings b) 0 displayed).
  { subst view displayed. simpl. unfold computeTotalSavings.
    rewrite Hnone. reflexivity. }
  split; [exact Htotal|]. split; [reflexivity|]. split.
  - subst view. simpl. fold displayed.
    destruct displayed as [|b bs] eqn:E; [reflexivity|].
    simpl Nat.eqb. cbv iota. rewrite <- E. apply binary64_imap_card_rows.
  - intros Hexact. rewrite Htotal, binary64_foldl_savings.
    destruct (foldl_add_exact (BlockData.savings <$> displayed) 0 0%Q
                eq_refl Hexact) as (total & s & Ht & Hs & Heq).
    exists total, s. split; [exact Ht|]. split; [exact Hs|].
    rewrite Heq. ring.
Qed.

Lemma total_savings_recomputed_samples :
  let mocks := BlockStatusCards Samples.sine Samples.clock Samples.noProps in
  let live :=
    BlockStatusCards Samples.sine Samples.clock
      (Samples.feedOf Samples.dyadic) in
  totalSavings mocks = 64.4 /\
  totalSavings_shown mocks = Decimal false 644 1 /\
  totalSavings live = 14.75 /\
  exists total : Q,
    value (totalSavings live) = Some total /\ (total == 14.75)%Q.
Proof.
  destruct (total_savings_recomputed Samples.sine Samples.clock
              Samples.noProps eq_refl) as (Hmocks & Hshown & _).
  destruct (total_savings_recomputed Samples.sine Samples.clock
              (Samples.feedOf Samples.dyadic) eq_refl)
    as (_ & _ & _ & Hexact).
  destruct (Hexact eq_refl) as (total & sum & Htotal & Hsum & Heq).
  split; [rewrite Hmocks; reflexivity|].
  split; [rewrite Hshown, Hmocks; reflexivity|].
  split; [reflexivity|].
  exists total. split; [exact Htotal|].
  vm_compute in Hsum. injection Hsum as <-. rewrite Heq. reflexivity.
Defined.

(** C6, as stated, fails where an addition rounds: over three rows with the
    savings 1e16, 1 and -1e16, whose sum is 1, the banner shows 0.0, as
    1e16 + 1 is 1e16 in binary64. *)
Lemma absorbed_savings_are_not_summed :
  let p := Samples.feedOf Samples.absorbed in
  let view := BlockStatusCards Samples.sine Samples.clock p in
  totalSavingsOverride p = None /\
  rows Samples.sine Samples.clock p = Samples.absorbed /\
  BlockData.savings <$> Samples.absorbed = [1e16; 1; -1e16] /\
  (exists sum : Q,
     exact_sum (BlockData.savings <$> Samples.absorbed) = Some sum /\
     (sum == 1)%Q) /\
  totalSavings view = 0 /\
  value (totalSavings view) = Some 0%Q /\
  totalSavings_shown view = Decimal false 0 1.
Proof.
  cbv zeta. repeat split. eexists. split; [vm_compute; reflexivity|reflexivity].
Qed.

End Binary64Cards.

(** With an override the banner shows the override, as on the Dashboard page
    once a snapshot is there. *)
Lemma total_savings_overridden
    (Math_sin : number -> number) (Date_now : nat -> Z) (p : Props)
    (override : number) :
  totalSavingsOverride p = Some override ->
  totalSavings (BlockStatusCards Math_sin Date_now p) = override.
Proof.
  intros Ho. simpl. unfold computeTotalSavings. rewrite Ho. reflexivity.
Qed.

(** ** No feed and empty feed *)

(** C10.  With the [blocks] prop undefined BlockStatusCards renders a card for
    each of the six hard-coded mock blocks; with [blocks] an empty array it
    renders the "Waiting for live block data..." placeholder and no card, so
    no mock data. *)
Theorem no_feed_is_not_empty_feed
    (Math_sin : number -> number) (Date_now : nat -> Z)
    (absent empty : Props) :
  blocks absent = None ->
  blocks empty = Some [] ->
  (rows Math_sin Date_now absent = mockBlocks Math_sin Date_now /\
   length (mockBlocks Math_sin Date_now) = 6%nat /\
   exists cards,
     grid (BlockStatusCards Math_sin Date_now absent) = CardGrid cards /\
     length cards = 6%nat /\
     row <$> cards = mockBlocks Math_sin Date_now) /\
  (rows Math_sin Date_now empty = [] /\
   grid (BlockStatusCards Math_sin Date_now empty)
     = Placeholder "Waiting for live block data...").
Proof.
  intros Habsent Hempty.
  assert (Hrows : rows Math_sin Date_now absent = mockBlocks Math_sin Date_now).
  { unfold rows, hasLiveData. rewrite Habsent. reflexivity. }
  assert (Hnone : rows Math_sin Date_now empty = []).
  { unfold rows, hasLiveData. rewrite Hempty. reflexivity. }
  split; [split; [exact Hrows|split; [reflexivity|]]|split; [exact Hnone|]].
  - exists (imap card (mockBlocks Math_sin Date_now)).
    split; [|split].
    + rewrite grid_cards; rewrite Hrows; [reflexivity|discriminate].
    + reflexivity.
    + apply imap_card_rows.
  - unfold BlockStatusCards. simpl. rewrite Hnone. reflexivity.
Qed.

Lemma no_feed_is_not_empty_feed_samples :
  blocks Samples.noProps = None /\
  blocks Samples.emptyFeed = Some [] /\
  (rows Samples.sine Samples.clock Samples.noProps
     = mockBlocks Samples.sine Samples.clock /\
   length (mockBlocks Samples.sine Samples.clock) = 6%nat /\
   exists cards,
     grid (BlockStatusCards Samples.sine Samples.clock Samples.noProps)
       = CardGrid cards /\
     length cards = 6%nat /\
     row <$> cards = mockBlocks Samples.sine Samples.clock) /\
  (rows Samples.sine Samples.clock Samples.emptyFeed = [] /\
   grid (BlockStatusCards Samples.sine Samples.clock Samples.emptyFeed)
     = Placeholder "Waiting for live block data...").
Proof.
  split; [reflexivity|]. split; [reflexivity|].
  apply (no_feed_is_not_empty_feed Samples.sine Samples.clock
           Samples.noProps Samples.emptyFeed); reflexivity.
Defined.

(** The Dashboard page always passes an array, so it never shows the mock
    blocks. *)
Lemma dashboard_rows
    (Math_sin : number -> number) (Date_now : nat -> Z)
    (st : Dashboard.State) :
  rows Math_sin Date_now (Dashboard.cardsProps st) = Dashboard.blocks st.
Proof.
  unfold rows, hasLiveData. simpl.
  destruct (Dashboard.blocks st) as [|b bs]; reflexivity.
Qed.

(** ** The stream label of the Dashboard *)

Lemma waitingForData_spec (st : Dashboard.State) :
  Dashboard.waitingForData st = true <->
  Dashboard.snapshot st = None \/
  (exists s ps,
     Dashboard.snapshot st = Some s /\
     DashboardSnapshot.pathway_state s = Some ps /\
     PathwayState.stream_status ps = WAITING_FOR_DATA) \/
  (exists s,
     Dashboard.snapshot st = Some s /\ DashboardSnapshot.blocks s = []).
Proof.
  unfold Dashboard.waitingForData, Dashboard.pathwayState.
  destruct (Dashboard.snapshot st) as [s|] eqn:Hs; simpl.
  - rewrite orb_true_iff, bool_decide_eq_true, Nat.eqb_eq. split.
    + intros [Hw|Hl]; right.
      * left. destruct (DashboardSnapshot.pathway_state s) as [ps|] eqn:Hp;
          simpl in Hw; [|discriminate].
        exists s, ps. split; [reflexivity|]. split; [exact Hp|].
        congruence.
      * right. exists s. split; [reflexivity|].
        destruct (DashboardSnapshot.blocks s); [reflexivity|discriminate].
    + intros [Hn|[(s' & ps & Hs' & Hp & Hw)|(s' & Hs' & Hb)]].
      * discriminate.
      * left. injection Hs' as <-. rewrite Hp. simpl. rewrite Hw. reflexivity.
      * right. injection Hs' as <-. rewrite Hb. reflexivity.
  - split; [intros _; left; reflexivity|reflexivity].
Qed.

(** C5.  Whenever the current snapshot is absent, or its
    [pathway_state.stream_status] is WAITING_FOR_DATA, or it has no block,
    the Dashboard's stream label is "WAITING FOR DATA" and not "LIVE STREAM",
    whatever the connection state; the label passed to the block cards says
    the same and the status dot is the warning one. *)
Theorem waiting_for_data_is_shown (st : Dashboard.State) :
  Dashboard.snapshot st = None \/
  (exists s ps,
     Dashboard.snapshot st = Some s /\
     DashboardSnapshot.pathway_state s = Some ps /\
     PathwayState.stream_status ps = WAITING_FOR_DATA) \/
  (exists s,
     Dashboard.snapshot st = Some s /\ DashboardSnapshot.blocks s = []) ->
  Dashboard.streamLabel st = "WAITING FOR DATA" /\
  Dashboard.streamLabel st <> "LIVE STREAM" /\
  Dashboard.isLive st = false /\
  Dashboard.streamDotClass st = "bg-warning" /\
  liveLabel (Dashboard.cardsProps st) = Some "WAITING FOR DATA".
Proof.
  intros Hwait. apply waitingForData_spec in Hwait.
  unfold Dashboard.streamLabel, Dashboard.streamDotClass, Dashboard.isLive,
    Dashboard.cardsProps.
  simpl. rewrite Hwait. rewrite andb_false_r. simpl.
  repeat split; try reflexivity. discriminate.
Qed.

Lemma waiting_for_data_is_shown_live_socket :
  let st := Samples.page (Some (Samples.feed WAITING_FOR_DATA Samples.fourBlocks)) in
  Dashboard.liveFromEvents st = true /\
  Dashboard.streamLabel st = "WAITING FOR DATA" /\
  Dashboard.streamLabel st <> "LIVE STREAM" /\
  Dashboard.isLive st = false /\
  Dashboard.streamDotClass st = "bg-warning" /\
  liveLabel (Dashboard.cardsProps st) = Some "WAITING FOR DATA".
Proof.
  split; [reflexivity|].
  apply (waiting_for_data_is_shown
           (Samples.page (Some (Samples.feed WAITING_FOR_DATA Samples.fourBlocks)))).
  right. left.
  exists (Samples.feed WAITING_FOR_DATA Samples.fourBlocks),
    (PathwayState.mk WAITING_FOR_DATA None (Fin 0) (Fin 0) (Fin 0)).
  repeat split.
Defined.

Example stream_label_of_a_live_feed :
  Dashboard.streamLabel
    (Samples.page (Some (Samples.feed LIVE Samples.fourBlocks)))
  = "LIVE STREAM" /\
  Dashboard.streamLabel (Samples.page (Some (Samples.feed LIVE [])))
  = "WAITING FOR DATA" /\
  Dashboard.streamLabel (Samples.page None) = "WAITING FOR DATA".
Proof. repeat split. Qed.

(** The label is the waiting one in no other case. *)
Lemma stream_label_otherwise (st : Dashboard.State) :
  Dashboard.waitingForData st = false ->
  Dashboard.streamLabel st
  = if Dashboard.liveFromEvents st then "LIVE STREAM" else "RECONNECTING".
Proof.
  intros Hw. unfold Dashboard.streamLabel, Dashboard.isLive. rewrite Hw.
  rewrite andb_true_r. reflexivity.
Qed.

(** ** Hotspots *)

(** C7.  The Dashboard's hotspot list holds exactly the blocks of the
    snapshot whose status is WASTE or POSSIBLE_WASTE, none with status NORMAL
    or NECESSARY, in the snapshot's order. *)
Theorem hotspots_are_the_waste_blocks
    (st : Dashboard.State) (s : DashboardSnapshot.t) :
  Dashboard.snapshot st = Some s ->
  (forall block : BlockStatus.t,
     block ∈ Dashboard.hotspots st <->
     block ∈ DashboardSnapshot.blocks s /\
     (BlockStatus.status block = WASTE \/
      BlockStatus.status block = POSSIBLE_WASTE)) /\
  (forall block : BlockStatus.t,
     block ∈ Dashboard.hotspots st ->
     BlockStatus.status block <> NORMAL /\
     BlockStatus.status block <> NECESSARY) /\
  sublist (Dashboard.hotspots st) (DashboardSnapshot.blocks s) /\
  forall status : WasteClass,
    status = WASTE \/ status = POSSIBLE_WASTE ->
    filter (fun block => BlockStatus.status block = status)
      (Dashboard.hotspots st)
    = filter (fun block => BlockStatus.status block = status)
        (DashboardSnapshot.blocks s).
Proof.
  intros Hs. unfold Dashboard.hotspots. rewrite Hs.
  assert (Hhot : forall block, Dashboard.isHotspot block <->
            BlockStatus.status block = WASTE \/
            BlockStatus.status block = POSSIBLE_WASTE).
  { intros block. unfold Dashboard.isHotspot.
    rewrite orb_True, !bool_decide_spec. reflexivity. }
  split; [|split; [|split]].
  - intros block. rewrite list_elem_of_filter, Hhot. tauto.
  - intros block Hin. apply list_elem_of_filter in Hin as [Hh _].
    apply Hhot in Hh. split; intros E; rewrite E in Hh;
      destruct Hh; discriminate.
  - apply sublist_filter.
  - intros status Hstatus. rewrite list_filter_filter.
    apply list_filter_iff. intros block. rewrite Hhot.
    split; [tauto|]. intros E. split; [exact E|]. rewrite E. exact Hstatus.
Qed.

Lemma hotspots_are_the_waste_blocks_sample :
  let s := Samples.feed LIVE Samples.fourBlocks in
  let st := Samples.page (Some s) in
  Dashboard.hotspots st
    = [Samples.labBlock WASTE "F"; Samples.labBlock POSSIBLE_WASTE "D"] /\
  (forall block : BlockStatus.t,
     block ∈ Dashboard.hotspots st <->
     block ∈ DashboardSnapshot.blocks s /\
     (BlockStatus.status block = WASTE \/
      BlockStatus.status block = POSSIBLE_WASTE)) /\
  (forall block : BlockStatus.t,
     block ∈ Dashboard.hotspots st ->
     BlockStatus.status block <> NORMAL /\
     BlockStatus.status block <> NECESSARY) /\
  sublist (Dashboard.hotspots st) (DashboardSnapshot.blocks s) /\
  forall status : WasteClass,
    status = WASTE \/ status = POSSIBLE_WASTE ->
    filter (fun block => BlockStatus.status block = status)
      (Dashboard.hotspots st)
    = filter (fun block => BlockStatus.status block = status)
        (DashboardSnapshot.blocks s).
Proof.
  split; [reflexivity|].
  apply (hotspots_are_the_waste_blocks
           (Samples.page (Some (Samples.feed LIVE Samples.fourBlocks)))
           (Samples.feed LIVE Samples.fourBlocks)).
  reflexivity.
Defined.

(** Before any snapshot there is no hotspot. *)
Lemma hotspots_without_snapshot (st : Dashboard.State) :
  Dashboard.snapshot st = None -> Dashboard.hotspots st = [].
Proof. intros Hs. unfold Dashboard.hotspots. rewrite Hs. reflexivity. Qed.

(** ** Sparkline *)

Lemma isFinite_Fin (a : number) :
  isFinite a = true -> exists x, a = Fin x.
Proof. destruct a as [x| |]; [intros _; exists x; reflexivity|done|done]. Qed.

Lemma add_finite (a b : number) :
  isFinite a = true -> isFinite b = true -> isFinite (add a b) = true.
Proof.
  intros [x ->]%isFinite_Fin [y ->]%isFinite_Fin. reflexivity.
Qed.








Example sparkline_of_two_values :
  Forall2 (fun p q => eqv p.1 q.1 /\ eqv p.2 q.2)
    (Sparkline.points [Fin 1; Fin 3] Sparkline.default_height)
    [(Fin 0, Fin 36); (Fin 100, Fin 0)] /\
  Sparkline.Sparkline [Fin 7] Sparkline.default_stroke
    Sparkline.default_height = Sparkline.NoActivityYet.
Proof. split; [repeat constructor|reflexivity]. Qed.







Section Binary64Sparkline.

Import PrimFloat.
#[local] Set Warnings "-inexact-float".
Local Open Scope float_scope.

Example binary64_sparkline_of_two_values :
  Binary64.Sparkline.Sparkline Binary64.Samples.engineLimit [1; 3] "red" 36
  = Binary64.Sparkline.Rendered
      (Binary64.Sparkline.Polyline 100 36 "red" [(0, 36); (100, 0)]) /\
  Binary64.Sparkline.Sparkline Binary64.Samples.engineLimit [7] "red" 36
  = Binary64.Sparkline.Rendered Binary64.Sparkline.NoActivityYet /\
  Binary64.Sparkline.range [infinity; infinity] = 1 /\
  Binary64.Sparkline.points [infinity; infinity] 36
  = [(0, nan); (100, nan)].
Proof. repeat split. Qed.



End Binary64Sparkline.

(** ** Histories *)


Lemma StronglySorted_drop {A : Type} (R : relation A) (k : nat) (l : list A) :
  StronglySorted R l -> StronglySorted R (drop k l).
Proof.
  intros Hl. rewrite <- (take_drop k l) in Hl.
  eapply StronglySorted_app_1_r, Hl.
Qed.


Section Binary64History.

Import PrimFloat.
#[local] Set Warnings "-inexact-float".
Local Open Scope float_scope.







End Binary64History.

(** ** The classification policy *)

Lemma outside_tolerance (cfg : Engine.ThresholdConfig) (deviation : Q) :
  (Engine.tolerance_pct cfg < deviation)%Q ->
  Engine.within_tolerance cfg deviation = false.
Proof.
  intros Hlt. unfold Engine.within_tolerance.
  destruct (Qle_bool _ _) eqn:E; [|reflexivity].
  apply Qle_bool_iff in E. pose proof (Qle_Qabs deviation). lra.
Qed.


Lemma Qle_bool_true (x y : Q) : (x <= y)%Q -> Qle_bool x y = true.
Proof. apply Qle_bool_iff. Qed.

Lemma policy_waste (cfg : Engine.ThresholdConfig)
    (deviation occupancy temperature : Q) :
  Engine.within_tolerance cfg deviation = false ->
  Engine.above_baseline deviation = true ->
  Engine.occupancy_high cfg occupancy = false ->
  Engine.temperature_extreme cfg temperature = false ->
  Engine.policy cfg deviation occupancy temperature
  = (WASTE, Engine.UnjustifiedExcess).
Proof.
  intros Hw Ha Hh He. unfold Engine.policy. rewrite Hw, Ha, Hh, He.
  reflexivity.
Qed.



(** ** Scenario A *)

(** C2.  An event with baseline 35.0, energy 55.1, occupancy 12 and
    temperature 26, at 8.0 INR/kWh and 0.7 kg/kWh, under thresholds that
    leave its deviation outside the tolerance band, its occupancy not high
    and its temperature inside the comfort band: the deviation is within
    0.05 of 57.4, the status is WASTE, the savings are
    [energy_kwh - baseline_kwh = 20.1], the waste cost is
    [savings * tariff = 160.8] and the CO2 is [savings * carbon = 14.07].
    The mock Block B of BlockStatusCards is this event: status WASTE, savings
    20.1, and a card that shows the deviation 57.4. *)
Theorem scenario_A_is_waste
    (cfg : Engine.ThresholdConfig) (r : Engine.EnrichedRecord)
    (Math_sin : number -> number) (Date_now : nat -> Z) :
  (Engine.energy_kwh r == 55.1)%Q ->
  (Engine.baseline_kwh r == 35.0)%Q ->
  (Engine.occupancy_pct r == 12)%Q ->
  (Engine.temperature_c r == 26)%Q ->
  (Engine.tariff_inr_per_kwh r == 8.0)%Q ->
  (Engine.carbon_intensity_kg_per_kwh r == 0.7)%Q ->
  (Engine.tolerance_pct cfg < Engine.deviation_pct r)%Q ->
  (12 <= Engine.occupancy_high_pct cfg)%Q ->
  (Engine.comfort_min_c cfg <= 26)%Q ->
  (26 <= Engine.comfort_max_c cfg)%Q ->
  let d := Engine.classify cfg r in
  ((Qabs (Engine.deviation_pct r - 57.4) <= 0.05)%Q /\
   Engine.status d = WASTE /\
   (Engine.savings_kwh d == Engine.energy_kwh r - Engine.baseline_kwh r)%Q /\
   (Engine.savings_kwh d == 20.1)%Q /\
   (Engine.waste_cost_inr d
    == Engine.savings_kwh d * Engine.tariff_inr_per_kwh r)%Q /\
   (Engine.waste_cost_inr d == 160.8)%Q /\
   (Engine.co2_kg d
    == Engine.savings_kwh d * Engine.carbon_intensity_kg_per_kwh r)%Q /\
   (Engine.co2_kg d == 14.07)%Q) /\
  exists b : BlockData.t,
    mockBlocks Math_sin Date_now !! 1%nat = Some b /\
    BlockData.energy_kwh b = Fin 55.1 /\
    BlockData.baseline b = Fin 35.0 /\
    BlockData.occupancy b = Fin 12 /\
    BlockData.temperature b = Fin 26 /\
    BlockData.status b = WASTE /\
    BlockData.savings b = Fin 20.1 /\
    eqv (BlockData.savings b)
        (sub (BlockData.energy_kwh b) (BlockData.baseline b)) /\
    approx 0.05 (deviation (card 1 b)) 57.4 /\
    eqv (deviation_shown (card 1 b)) (Fin 57.4) /\
    label (BlockStatusCards.cfg (card 1 b)) = "WASTE".
Proof.
  intros He Hb Ho Ht Htariff Hcarbon Htol Hocc Hmin Hmax d.
  assert (Hdev : (Engine.deviation_pct r == 402 # 7)%Q).
  { unfold Engine.deviation_pct. rewrite He, Hb. reflexivity. }
  assert (Hverdict :
    Engine.policy cfg (Engine.deviation_pct r) (Engine.occupancy_pct r)
      (Engine.temperature_c r) = (WASTE, Engine.UnjustifiedExcess)).
  { apply policy_waste.
    - apply outside_tolerance, Htol.
    - unfold Engine.above_baseline. rewrite Hdev. reflexivity.
    - unfold Engine.occupancy_high. rewrite Ho.
      rewrite Qle_bool_true by exact Hocc. reflexivity.
    - unfold Engine.temperature_extreme. rewrite Ht.
      rewrite !Qle_bool_true by assumption. reflexivity. }
  assert (Hsavings :
    (Engine.savings_kwh d == Engine.energy_kwh r - Engine.baseline_kwh r)%Q).
  { subst d. unfold Engine.classify. rewrite Hverdict. simpl. reflexivity. }
  assert (Hcost : (Engine.waste_cost_inr d
                   == Engine.savings_kwh d * Engine.tariff_inr_per_kwh r)%Q).
  { subst d. unfold Engine.classify. simpl. reflexivity. }
  assert (Hco2 : (Engine.co2_kg d
    == Engine.savings_kwh d * Engine.carbon_intensity_kg_per_kwh r)%Q).
  { subst d. unfold Engine.classify. simpl. reflexivity. }
  split.
  - split; [rewrite Hdev; apply Qabs_Qle_condition; split; discriminate|].
    split; [subst d; unfold Engine.classify; rewrite Hverdict; reflexivity|].
    split; [exact Hsavings|].
    split; [rewrite Hsavings, He, Hb; reflexivity|].
    split; [exact Hcost|].
    split; [rewrite Hcost, Hsavings, He, Hb, Htariff; reflexivity|].
    split; [exact Hco2|].
    rewrite Hco2, Hsavings, He, Hb, Hcarbon. reflexivity.
  - eexists. split; [reflexivity|].
    repeat (split; [reflexivity|]).
    split; [apply Qabs_Qle_condition; split; discriminate|].
    split; reflexivity.
Qed.

Lemma scenario_A_is_waste_sample :
  let d := Engine.classify Samples.thresholds Samples.scenarioA in
  (Engine.tolerance_pct Samples.thresholds
   < Engine.deviation_pct Samples.scenarioA)%Q /\
  Engine.status d = WASTE /\
  (Engine.savings_kwh d == 20.1)%Q /\
  (Engine.waste_cost_inr d == 160.8)%Q /\
  (Engine.co2_kg d == 14.07)%Q /\
  Engine.root_cause d = Engine.UnjustifiedExcess.
Proof.
  assert (Htol : (Engine.tolerance_pct Samples.thresholds
                  < Engine.deviation_pct Samples.scenarioA)%Q)
    by reflexivity.
  destruct (scenario_A_is_waste Samples.thresholds Samples.scenarioA
              Samples.sine Samples.clock)
    as ((_ & Hstatus & _ & Hsavings & _ & Hcost & _ & Hco2) & _);
    try reflexivity; try discriminate.
  split; [exact Htol|]. split; [exact Hstatus|]. split; [exact Hsavings|].
  split; [exact Hcost|]. split; [exact Hco2|reflexivity].
Defined.

(** ** Scenario B *)




(** * Further properties *)

(** ** Sparkline: the shape of the polyline *)






Lemma points_lookup (values : list number) (height : number) (i : nat)
    (xy : number * number) :
  Sparkline.points values height !! i = Some xy ->
  exists v : number,
    values !! i = Some v /\ xy = Sparkline.point values height i v.
Proof.
  unfold Sparkline.points. rewrite list_lookup_imap.
  destruct (values !! i) as [v|]; [|discriminate].
  intros [= <-]. exists v. split; reflexivity.
Qed.











(** ** generateHistory: the range of the generated values *)





(** ** BlockStatusCards: the energy bar, the sparkline and live rows *)





(** X8.  On the Dashboard page the cards never recompute what the snapshot
    carries: there is one card per snapshot block, in the snapshot's order;
    its deviation is the block's [deviation_pct], not the formula on energy
    and baseline; its occupancy is the block's, rounded to an integer; and
    the Total Potential Savings is the snapshot's [total_savings_kwh], not
    the sum over the rows. *)
Theorem dashboard_cards_show_the_snapshot
    (Math_sin : number -> number) (Date_now : nat -> Z)
    (st : Dashboard.State) (s : DashboardSnapshot.t)
    (i : nat) (block : BlockStatus.t) :
  Dashboard.snapshot st = Some s ->
  DashboardSnapshot.blocks s !! i = Some block ->
  let view := BlockStatusCards Math_sin Date_now (Dashboard.cardsProps st) in
  totalSavings view
  = DashboardTotals.total_savings_kwh (DashboardSnapshot.totals s) /\
  exists (cards : list Card) (c : Card),
    grid view = CardGrid cards /\
    length cards = length (DashboardSnapshot.blocks s) /\
    cards !! i = Some c /\
    row c = Dashboard.toBlockData block /\
    deviation c = BlockStatus.deviation_pct block /\
    BlockData.occupancy (row c) = Math_round (BlockStatus.occupancy block) /\
    label (cfg c) = label (statusConfig (BlockStatus.status block)).
Proof.
  intros Hs Hblock view.
  assert (Hblocks : Dashboard.blocks st
                    = Dashboard.toBlockData <$> DashboardSnapshot.blocks s).
  { unfold Dashboard.blocks. rewrite Hs. reflexivity. }
  assert (Hrows : rows Math_sin Date_now (Dashboard.cardsProps st)
                  = Dashboard.toBlockData <$> DashboardSnapshot.blocks s).
  { rewrite dashboard_rows. exact Hblocks. }
  split.
  - subst view. apply total_savings_overridden.
    cbn [totalSavingsOverride Dashboard.cardsProps]. rewrite Hs. reflexivity.
  - assert (Hrow : rows Math_sin Date_now (Dashboard.cardsProps st) !! i
                   = Some (Dashboard.toBlockData block)).
    { rewrite Hrows, list_lookup_fmap, Hblock. reflexivity. }
    destruct (grid_card_at Math_sin Date_now _ i _ Hrow) as (cards & Hg & Hc).
    exists cards, (card i (Dashboard.toBlockData block)).
    split; [exact Hg|]. split.
    + subst view. rewrite grid_cards in Hg.
      * injection Hg as <-. rewrite length_imap, Hrows, length_fmap.
        reflexivity.
      * intros E. rewrite E in Hrow. discriminate.
    + split; [exact Hc|]. repeat split.
Qed.

Lemma dashboard_cards_show_the_snapshot_sample :
  let s := Samples.feed LIVE Samples.fourBlocks in
  let st := Samples.page (Some s) in
  let view :=
    BlockStatusCards Samples.sine Samples.clock (Dashboard.cardsProps st) in
  totalSavings view = Fin 0 /\
  exists (cards : list Card) (c : Card),
    grid view = CardGrid cards /\
    length cards = 4%nat /\
    cards !! 1%nat = Some c /\
    row c = Dashboard.toBlockData (Samples.labBlock WASTE "F") /\
    deviation c = Fin 35.3 /\
    BlockData.occupancy (row c) = Math_round (Fin 20) /\
    label (cfg c) = "WASTE".
Proof.
  apply (dashboard_cards_show_the_snapshot Samples.sine Samples.clock
           (Samples.page (Some (Samples.feed LIVE Samples.fourBlocks)))
           (Samples.feed LIVE Samples.fourBlocks) 1
           (Samples.labBlock WASTE "F")); reflexivity.
Defined.

(** ** BlockDetailModal *)

Lemma StronglySorted_reverse {A : Type} (R : relation A) (l : list A) :
  StronglySorted R l -> StronglySorted (flip R) (reverse l).
Proof.
  induction 1 as [|x l Hl IH Hx]; [constructor|].
  rewrite reverse_cons. apply StronglySorted_app_2.
  - intros y z Hy ->%list_elem_of_singleton. unfold flip.
    rewrite Forall_forall in Hx. apply Hx. apply elem_of_reverse, Hy.
  - exact IH.
  - repeat constructor.
Qed.

(** X9.  The dialog lists the last six history points, newest first: as
    many points as the history has up to six, the [k]-th listed being the
    [k]-th from the end, so in strictly decreasing time when the history is
    in strictly increasing time; it lists none ("No recent activity yet.")
    exactly when the history is empty or absent. *)
Theorem latest_points_newest_first (block : BlockData.t) :
  let history := BlockDetailModal.history block in
  exists view : BlockDetailModal.View,
    BlockDetailModal.BlockDetailModal (Some block) = Some view /\
    length (BlockDetailModal.latest view) = (6 `min` length history)%nat /\
    (forall k : nat,
       (k < length (BlockDetailModal.latest view))%nat ->
       BlockDetailModal.latest view !! k
       = history !! (length history - S k)%nat) /\
    (StronglySorted Z.lt (BlockHistoryPoint.ts <$> history) ->
     StronglySorted (flip Z.lt)
       (BlockHistoryPoint.ts <$> BlockDetailModal.latest view)) /\
    (BlockDetailModal.latest view = [] <-> history = []).
Proof.
  intros history. eexists. split; [reflexivity|].
  cbn [BlockDetailModal.latest].
  unfold BlockDetailModal.latestPoints, BlockDetailModal.slice_last.
  fold history.
  assert (Hlen : length (reverse (drop (length history - 6) history))
                 = (6 `min` length history)%nat).
  { rewrite length_reverse, length_drop. lia. }
  split; [exact Hlen|]. split; [|split].
  - intros k Hk. rewrite Hlen in Hk.
    rewrite reverse_lookup by (rewrite length_drop; lia).
    rewrite lookup_drop, length_drop. f_equal. lia.
  - intros Hsorted. rewrite fmap_reverse, fmap_drop.
    apply StronglySorted_reverse, StronglySorted_drop, Hsorted.
  - split.
    + intros Hnil. apply (f_equal length) in Hnil. rewrite Hlen in Hnil.
      destruct history; [reflexivity|simpl in Hnil; lia].
    + intros ->. reflexivity.
Qed.

Lemma latest_points_newest_first_sample :
  exists view : BlockDetailModal.View,
    BlockDetailModal.BlockDetailModal (Some MoreSamples.longHistory)
    = Some view /\
    BlockDetailModal.latest view
    = Samples.arrival <$> [8; 7; 6; 5; 4; 3]%Z /\
    StronglySorted (flip Z.lt)
      (BlockHistoryPoint.ts <$> BlockDetailModal.latest view).
Proof.
  destruct (latest_points_newest_first MoreSamples.longHistory)
    as (view & Hview & _ & _ & Hsorted & _).
  exists view. split; [exact Hview|].
  injection Hview as <-. split; [reflexivity|].
  apply Hsorted. repeat constructor; simpl; lia.
Defined.

(** ** The Dashboard page: the last snapshot is kept *)

Lemma snapshot_nextRender (st : Dashboard.State)
    (hook : DashboardPage.HookOutput) :
  Dashboard.snapshot (DashboardPage.nextRender st hook)
  = match DashboardPage.hook_data hook with
    | Some d => Some d
    | None => Dashboard.snapshot st
    end.
Proof.
  unfold Dashboard.snapshot. simpl.
  destruct (DashboardPage.hook_data hook); reflexivity.
Qed.

(** X11.  Once a snapshot has been received the page never loses it: after
    any sequence of renders the current snapshot is the last one the stream
    hook delivered, whatever it returned afterwards, and the snapshot it had
    before when the hook delivered none. *)
Theorem last_snapshot_is_kept (st : Dashboard.State)
    (hooks : list DashboardPage.HookOutput) :
  Dashboard.snapshot (DashboardPage.renders st hooks)
  = match last (omap DashboardPage.hook_data hooks) with
    | Some d => Some d
    | None => Dashboard.snapshot st
    end /\
  (is_Some (Dashboard.snapshot st) ->
   is_Some (Dashboard.snapshot (DashboardPage.renders st hooks))) /\
  (forall (hook : DashboardPage.HookOutput),
     hook ∈ hooks -> is_Some (DashboardPage.hook_data hook) ->
     is_Some (Dashboard.snapshot (DashboardPage.renders st hooks))).
Proof.
  assert (Hlast : Dashboard.snapshot (DashboardPage.renders st hooks)
    = match last (omap DashboardPage.hook_data hooks) with
      | Some d => Some d
      | None => Dashboard.snapshot st
      end).
  { unfold DashboardPage.renders.
    induction hooks as [|hook hooks IH] using rev_ind; [reflexivity|].
    rewrite foldl_snoc, snapshot_nextRender, omap_app, last_app. simpl.
    destruct (DashboardPage.hook_data hook); [reflexivity|exact IH]. }
  split; [exact Hlast|]. split.
  - intros Hsome. rewrite Hlast.
    destruct (last _); [eexists; reflexivity|exact Hsome].
  - intros hook Hin [d Hd]. rewrite Hlast.
    destruct (last (omap DashboardPage.hook_data hooks)) eqn:E;
      [eexists; reflexivity|].
    exfalso. apply last_None in E.
    assert (Hd' : d ∈ omap DashboardPage.hook_data hooks).
    { apply list_elem_of_omap. exists hook. split; assumption. }
    rewrite E in Hd'. inversion Hd'.
Qed.

Lemma last_snapshot_is_kept_sample :
  let st := DashboardPage.renders (Samples.page None) MoreSamples.dropOut in
  Dashboard.data st = None /\
  Dashboard.snapshot st = Some (Samples.feed LIVE Samples.fourBlocks) /\
  Dashboard.streamLabel st = "RECONNECTING".
Proof.
  split; [reflexivity|].
  destruct (last_snapshot_is_kept (Samples.page None) MoreSamples.dropOut)
    as (Hlast & _).
  split; [exact Hlast|reflexivity].
Defined.

(** ** The Dashboard page: the block map *)

Lemma setBlock_lookup (map : gmap string BlockData.t) (block : BlockData.t)
    (k : string) :
  DashboardPage.setBlock map block !! k
  = if decide (BlockData.id block = Some k /\ k <> "")
    then Some block else map !! k.
Proof.
  unfold DashboardPage.setBlock.
  destruct (BlockData.id block) as [id|] eqn:Hid.
  - destruct (String.eqb_spec id "") as [->|Hne].
    + destruct (decide _) as [[[= <-] Hk]|_]; [done|reflexivity].
    + destruct (decide (id = k)) as [->|Hk].
      * rewrite lookup_insert_eq.
        destruct (decide _) as [_|Hn]; [reflexivity|]. exfalso. apply Hn. done.
      * rewrite lookup_insert_ne by exact Hk.
        destruct (decide _) as [[[= ?] _]|_]; [done|reflexivity].
  - destruct (decide _) as [[? _]|_]; [done|reflexivity].
Qed.

Lemma foldl_setBlock_absent (blocks : list BlockData.t)
    (map : gmap string BlockData.t) (k : string) :
  Forall (fun block => ~ (BlockData.id block = Some k /\ k <> "")) blocks ->
  foldl DashboardPage.setBlock map blocks !! k = map !! k.
Proof.
  revert map. induction blocks as [|block blocks IH]; intros map Hall;
    [reflexivity|].
  apply Forall_cons in Hall as [Hblock Hrest]. simpl.
  rewrite IH by exact Hrest. rewrite setBlock_lookup.
  destruct (decide _); [contradiction|reflexivity].
Qed.

Lemma foldl_setBlock_kept (blocks : list BlockData.t)
    (map : gmap string BlockData.t) (k : string) :
  is_Some (map !! k) ->
  is_Some (foldl DashboardPage.setBlock map blocks !! k).
Proof.
  revert map. induction blocks as [|block blocks IH]; intros map Hsome;
    [exact Hsome|].
  simpl. apply IH. rewrite setBlock_lookup.
  destruct (decide _); [eexists; reflexivity|exact Hsome].
Qed.

Lemma foldl_setBlock_origin (blocks : list BlockData.t)
    (map : gmap string BlockData.t) (k : string) (details : BlockData.t) :
  foldl DashboardPage.setBlock map blocks !! k = Some details ->
  map !! k = Some details \/
  (details ∈ blocks /\ BlockData.id details = Some k).
Proof.
  revert map. induction blocks as [|block blocks IH]; intros map Hd;
    [left; exact Hd|].
  simpl in Hd. apply IH in Hd as [Hd|[Hin Hid]].
  - rewrite setBlock_lookup in Hd.
    destruct (decide _) as [[Hid _]|_]; [|left; exact Hd].
    injection Hd as <-. right. split; [apply list_elem_of_here|exact Hid].
  - right. split; [apply list_elem_of_further, Hin|exact Hid].
Qed.

(** X12.  A click on the heatmap tile of a snapshot block opens details
    only when the block's id is not empty; it then opens the details of a
    snapshot block with that id, and those of the clicked block itself when
    no later block of the snapshot shares its id.  A block with an empty id
    has no entry in the map, so its tile opens nothing. *)
Theorem tile_opens_its_block (st : Dashboard.State)
    (s : DashboardSnapshot.t) (i : nat) (block : BlockStatus.t) :
  Dashboard.snapshot st = Some s ->
  DashboardSnapshot.blocks s !! i = Some block ->
  (BlockStatus.block_id block = "" ->
   DashboardPage.tileDetails st block = None) /\
  (BlockStatus.block_id block <> "" ->
   exists other : BlockStatus.t,
     other ∈ DashboardSnapshot.blocks s /\
     BlockStatus.block_id other = BlockStatus.block_id block /\
     DashboardPage.tileDetails st block
     = Some (Dashboard.toBlockData other)) /\
  (BlockStatus.block_id block <> "" ->
   (forall (j : nat) (later : BlockStatus.t),
      (i < j)%nat -> DashboardSnapshot.blocks s !! j = Some later ->
      BlockStatus.block_id later <> BlockStatus.block_id block) ->
   DashboardPage.tileDetails st block = Some (Dashboard.toBlockData block)).
Proof.
  intros Hs Hblock.
  unfold DashboardPage.tileDetails, DashboardPage.blockMap, Dashboard.blocks.
  rewrite Hs. set (k := BlockStatus.block_id block).
  set (blocks := DashboardSnapshot.blocks s) in *.
  assert (Hsplit : Dashboard.toBlockData <$> blocks
    = ((Dashboard.toBlockData <$> take i blocks)
       ++ Dashboard.toBlockData block
          :: (Dashboard.toBlockData <$> drop (S i) blocks))%list).
  { rewrite <- (take_drop_middle blocks i block Hblock) at 1.
    rewrite fmap_app, fmap_cons. reflexivity. }
  split; [|split].
  - intros Hk. rewrite Hk. rewrite foldl_setBlock_absent; [reflexivity|].
    apply Forall_forall. intros b _ [_ Hne]. done.
  - intros Hk.
    assert (Hsome : is_Some
      (foldl DashboardPage.setBlock ∅ (Dashboard.toBlockData <$> blocks) !! k)).
    { rewrite Hsplit, foldl_app. simpl.
      apply foldl_setBlock_kept. rewrite setBlock_lookup.
      destruct (decide _) as [_|Hn]; [eexists; reflexivity|].
      exfalso. apply Hn. split; [reflexivity|exact Hk]. }
    destruct Hsome as [details Hdetails].
    destruct (foldl_setBlock_origin _ _ _ _ Hdetails) as [Hempty|[Hin Hid]];
      [rewrite lookup_empty in Hempty; discriminate|].
    apply list_elem_of_fmap in Hin as (other & -> & Hother).
    exists other. split; [exact Hother|]. split; [|exact Hdetails].
    simpl in Hid. congruence.
  - intros Hk Hlater. rewrite Hsplit, foldl_app. simpl.
    rewrite foldl_setBlock_absent.
    + rewrite setBlock_lookup.
      destruct (decide _) as [_|Hn]; [reflexivity|].
      exfalso. apply Hn. split; [reflexivity|exact Hk].
    + apply Forall_forall. intros b Hb [Hid _].
      apply list_elem_of_fmap in Hb as (later & -> & Hin).
      apply list_elem_of_lookup in Hin as [j Hj].
      rewrite lookup_drop in Hj.
      apply (Hlater (S i + j)%nat later); [lia|exact Hj|].
      simpl in Hid. congruence.
Qed.

Lemma tile_opens_its_block_sample :
  let s := Samples.feed LIVE Samples.fourBlocks in
  let st := Samples.page (Some s) in
  DashboardPage.tileDetails st (Samples.labBlock NECESSARY "A")
  = Some (Dashboard.toBlockData (Samples.labBlock NECESSARY "A")) /\
  DashboardPage.tileDetails st (Samples.labBlock NORMAL "")  = None.
Proof.
  destruct (tile_opens_its_block
              (Samples.page (Some (Samples.feed LIVE Samples.fourBlocks)))
              (Samples.feed LIVE Samples.fourBlocks) 2
              (Samples.labBlock NECESSARY "A") eq_refl eq_refl)
    as (_ & _ & Hown).
  split; [|reflexivity].
  apply Hown; [discriminate|].
  intros j later Hij Hj.
  destruct j as [|[|[|[|j]]]]; try lia; [|discriminate].
  injection Hj as <-. discriminate.
Defined.

(** ** The Dashboard page: the heatmap and the hotspot insights *)

Lemma filter_nil_Forall {A : Type} (P : A -> Prop)
    `{forall x, Decision (P x)} (l : list A) :
  filter P l = [] <-> Forall (fun x => ~ P x) l.
Proof.
  induction l as [|x l IH]; [split; [constructor|reflexivity]|].
  rewrite filter_cons. destruct (decide (P x)) as [Hx|Hx].
  - split; [discriminate|]. intros Hall. inversion Hall. contradiction.
  - rewrite IH. split.
    + intros Hall. constructor; assumption.
    + intros Hall. inversion Hall. assumption.
Qed.

Lemma not_hotspot (block : BlockStatus.t) :
  ~ Dashboard.isHotspot block <->
  BlockStatus.status block = NORMAL \/ BlockStatus.status block = NECESSARY.
Proof.
  unfold Dashboard.isHotspot. rewrite orb_True, !bool_decide_spec.
  destruct (BlockStatus.status block); split; intros H.
  - left; reflexivity.
  - intros [?|?]; discriminate.
  - right; reflexivity.
  - intros [?|?]; discriminate.
  - exfalso. apply H. right. reflexivity.
  - destruct H; discriminate.
  - exfalso. apply H. left. reflexivity.
  - destruct H; discriminate.
Qed.

Lemma hotspots_nil_iff (st : Dashboard.State) (s : DashboardSnapshot.t) :
  Dashboard.snapshot st = Some s ->
  Dashboard.hotspots st = [] <->
  Forall (fun block => BlockStatus.status block = NORMAL \/
                       BlockStatus.status block = NECESSARY)
    (DashboardSnapshot.blocks s).
Proof.
  intros Hs. unfold Dashboard.hotspots. rewrite Hs.
  rewrite filter_nil_Forall. apply Forall_iff. intros block.
  apply not_hotspot.
Qed.

(** X13.  The Hotspot Insights panel says "No critical waste detected."
    exactly when the page is not waiting for data and every block of the
    snapshot is NORMAL or NECESSARY; whenever the heatmap says it is waiting
    the insights say so too, and a snapshot whose stream status is
    WAITING_FOR_DATA hides the hotspot list even though the heatmap still
    shows the tiles. *)
Theorem insights_follow_the_stream (st : Dashboard.State) :
  (DashboardPage.hotspotInsights st = DashboardPage.NoCriticalWaste <->
   Dashboard.waitingForData st = false /\
   exists s : DashboardSnapshot.t,
     Dashboard.snapshot st = Some s /\
     Forall (fun block => BlockStatus.status block = NORMAL \/
                          BlockStatus.status block = NECESSARY)
       (DashboardSnapshot.blocks s)) /\
  (DashboardPage.wasteHeatmap st = DashboardPage.HeatmapWaiting ->
   DashboardPage.hotspotInsights st = DashboardPage.InsightsWaiting) /\
  (forall (s : DashboardSnapshot.t) (ps : PathwayState.t),
     Dashboard.snapshot st = Some s ->
     DashboardSnapshot.pathway_state s = Some ps ->
     PathwayState.stream_status ps = WAITING_FOR_DATA ->
     DashboardSnapshot.blocks s <> [] ->
     DashboardPage.hotspotInsights st = DashboardPage.InsightsWaiting /\
     DashboardPage.wasteHeatmap st
     = DashboardPage.Tiles (DashboardSnapshot.blocks s)).
Proof.
  split; [|split].
  - unfold DashboardPage.hotspotInsights.
    destruct (Dashboard.waitingForData st) eqn:Hw.
    { split; [discriminate|]. intros [? _]. discriminate. }
    destruct (Dashboard.snapshot st) as [s|] eqn:Hs.
    2:{ unfold Dashboard.waitingForData in Hw. rewrite Hs in Hw.
        discriminate. }
    pose proof (hotspots_nil_iff st s Hs) as Hnil.
    destruct (Dashboard.hotspots st) as [|h hs] eqn:Hh; simpl.
    + split; [|reflexivity]. intros _. split; [reflexivity|].
      exists s. split; [reflexivity|]. apply Hnil. reflexivity.
    + split; [discriminate|]. intros (_ & s' & [= <-] & Hall).
      apply Hnil in Hall. discriminate.
  - unfold DashboardPage.wasteHeatmap, DashboardPage.hotspotInsights.
    intros Hheat.
    assert (Hw : Dashboard.waitingForData st = true).
    { apply waitingForData_spec.
      destruct (Dashboard.snapshot st) as [s|]; [|left; reflexivity].
      right. right. exists s. split; [reflexivity|].
      destruct (DashboardSnapshot.blocks s); [reflexivity|discriminate]. }
    rewrite Hw. reflexivity.
  - intros s ps Hs Hps Hstatus Hblocks.
    assert (Hw : Dashboard.waitingForData st = true).
    { apply waitingForData_spec. right. left. exists s, ps. done. }
    unfold DashboardPage.hotspotInsights, DashboardPage.wasteHeatmap.
    rewrite Hw, Hs. split; [reflexivity|].
    destruct (DashboardSnapshot.blocks s); [done|reflexivity].
Qed.

Lemma insights_follow_the_stream_sample :
  Dashboard.hotspots MoreSamples.staleFeed
  = [Samples.labBlock WASTE "F"; Samples.labBlock POSSIBLE_WASTE "D"] /\
  DashboardPage.hotspotInsights MoreSamples.staleFeed
  = DashboardPage.InsightsWaiting /\
  DashboardPage.wasteHeatmap MoreSamples.staleFeed
  = DashboardPage.Tiles Samples.fourBlocks.
Proof.
  split; [reflexivity|].
  destruct (insights_follow_the_stream MoreSamples.staleFeed)
    as (_ & _ & Hstale).
  apply (Hstale (Samples.feed WAITING_FOR_DATA Samples.fourBlocks)
           (PathwayState.mk WAITING_FOR_DATA None (Fin 0) (Fin 0) (Fin 0)));
    [reflexivity|reflexivity|reflexivity|discriminate].
Defined.

(** ** The Dashboard page: the block proposed for demand response *)

(** X14.  The block that handleProposeAdr sends is the first block of the
    snapshot, in the snapshot's order, whose status is WASTE or
    POSSIBLE_WASTE: every block before it is NORMAL or NECESSARY; the
    request carries no block when the snapshot has no such block. *)
Theorem proposal_is_the_first_hotspot (st : Dashboard.State)
    (s : DashboardSnapshot.t) :
  Dashboard.snapshot st = Some s ->
  match DashboardPage.proposalCandidate st with
  | Some candidate =>
      DashboardPage.proposalPayload st
      = Some (BlockStatus.block_id candidate) /\
      (BlockStatus.status candidate = WASTE \/
       BlockStatus.status candidate = POSSIBLE_WASTE) /\
      exists before after : list BlockStatus.t,
        DashboardSnapshot.blocks s = (before ++ candidate :: after)%list /\
        Forall (fun block => BlockStatus.status block = NORMAL \/
                             BlockStatus.status block = NECESSARY) before
  | None =>
      DashboardPage.proposalPayload st = None /\
      Forall (fun block => BlockStatus.status block = NORMAL \/
                           BlockStatus.status block = NECESSARY)
        (DashboardSnapshot.blocks s)
  end.
Proof.
  intros Hs. unfold DashboardPage.proposalPayload.
  pose proof (hotspots_nil_iff st s Hs) as Hnil.
  unfold DashboardPage.proposalCandidate.
  destruct (Dashboard.hotspots st !! 0%nat) as [candidate|] eqn:Hc.
  - split; [reflexivity|].
    assert (Hhead : head (Dashboard.hotspots st) = Some candidate).
    { destruct (Dashboard.hotspots st); [discriminate|exact Hc]. }
    unfold Dashboard.hotspots in Hhead. rewrite Hs in Hhead.
    pose proof (head_Some_elem_of _ _ Hhead) as Hin.
    apply list_elem_of_filter in Hin as [Hhot _].
    apply head_filter_Some in Hhead as (before & after & Hsplit & Hbefore).
    split.
    + unfold Dashboard.isHotspot in Hhot.
      rewrite orb_True, !bool_decide_spec in Hhot. exact Hhot.
    + exists before, after. split; [exact Hsplit|].
      eapply Forall_impl; [exact Hbefore|]. intros block Hnot.
      apply not_hotspot, Hnot.
  - split; [reflexivity|]. apply Hnil.
    destruct (Dashboard.hotspots st); [reflexivity|discriminate].
Qed.

Lemma proposal_is_the_first_hotspot_sample :
  let st := Samples.page (Some (Samples.feed LIVE Samples.fourBlocks)) in
  DashboardPage.proposalCandidate st = Some (Samples.labBlock WASTE "F") /\
  DashboardPage.proposalPayload st = Some "F" /\
  match DashboardPage.proposalCandidate st with
  | Some candidate =>
      DashboardPage.proposalPayload st
      = Some (BlockStatus.block_id candidate) /\
      (BlockStatus.status candidate = WASTE \/
       BlockStatus.status candidate = POSSIBLE_WASTE) /\
      exists before after : list BlockStatus.t,
        Samples.fourBlocks = (before ++ candidate :: after)%list /\
        Forall (fun block => BlockStatus.status block = NORMAL \/
                             BlockStatus.status block = NECESSARY) before
  | None =>
      DashboardPage.proposalPayload st = None /\
      Forall (fun block => BlockStatus.status block = NORMAL \/
                           BlockStatus.status block = NECESSARY)
        Samples.fourBlocks
  end.
Proof.
  split; [reflexivity|]. split; [reflexivity|].
  apply (proposal_is_the_first_hotspot
           (Samples.page (Some (Samples.feed LIVE Samples.fourBlocks)))
           (Samples.feed LIVE Samples.fourBlocks)).
  reflexivity.
Defined.

(** ** The Dashboard page: the block selected for the digital twin *)

Lemma find_block_id (blocks : list BlockStatus.t) (selected : string) :
  existsb (fun block => String.eqb (BlockStatus.block_id block) selected)
    blocks = true ->
  exists block : BlockStatus.t,
    find (fun block => String.eqb (BlockStatus.block_id block) selected)
      blocks = Some block /\
    block ∈ blocks /\ BlockStatus.block_id block = selected.
Proof.
  induction blocks as [|b blocks IH]; [discriminate|]. simpl.
  destruct (String.eqb_spec (BlockStatus.block_id b) selected) as [Hb|Hb].
  - intros _. exists b. split; [reflexivity|].
    split; [apply list_elem_of_here|exact Hb].
  - simpl. intros Hex. destruct (IH Hex) as (block & Hfind & Hin & Hid).
    exists block. split; [exact Hfind|].
    split; [apply list_elem_of_further, Hin|exact Hid].
Qed.

Lemma selectTwinBlock_blocks (st : Dashboard.State)
    (s : DashboardSnapshot.t) (first : BlockStatus.t)
    (rest : list BlockStatus.t) (selected : string) :
  Dashboard.snapshot st = Some s ->
  DashboardSnapshot.blocks s = first :: rest ->
  DashboardPage.selectTwinBlock st selected
  = if String.eqb selected ""
       || negb (existsb
                  (fun block => String.eqb (BlockStatus.block_id block) selected)
                  (first :: rest))
    then BlockStatus.block_id first else selected.
Proof.
  intros Hs Hblocks. unfold DashboardPage.selectTwinBlock.
  rewrite Hs. cbn [fmap option_fmap option_map]. rewrite Hblocks. reflexivity.
Qed.

Lemma selectTwinBlock_no_block (st : Dashboard.State) (selected : string) :
  (forall s : DashboardSnapshot.t,
     Dashboard.snapshot st = Some s -> DashboardSnapshot.blocks s = []) ->
  DashboardPage.selectTwinBlock st selected = "".
Proof.
  intros Hnone. unfold DashboardPage.selectTwinBlock.
  destruct (Dashboard.snapshot st) as [s|]; [|reflexivity].
  cbn [fmap option_fmap option_map]. rewrite (Hnone s eq_refl). reflexivity.
Qed.

Lemma selectedTwinBlock_blocks (st : Dashboard.State)
    (s : DashboardSnapshot.t) (selected : string) :
  Dashboard.snapshot st = Some s ->
  DashboardPage.selectedTwinBlock st selected
  = find (fun block => String.eqb (BlockStatus.block_id block) selected)
      (DashboardSnapshot.blocks s).
Proof.
  intros Hs. unfold DashboardPage.selectedTwinBlock. rewrite Hs. reflexivity.
Qed.

(** X15.  The effect that maintains [selectedTwinBlockId] settles in one
    run: running it again changes nothing.  With a snapshot that has blocks
    the id it leaves selects a block of the snapshot, so [selectedTwinBlock]
    is found; a selection that is not empty and names a block of the
    snapshot is kept; without a block the selection is cleared. *)
Theorem twin_selection_settles (st : Dashboard.State) (selected : string) :
  let chosen := DashboardPage.selectTwinBlock st selected in
  DashboardPage.selectTwinBlock st chosen = chosen /\
  (forall s : DashboardSnapshot.t,
     Dashboard.snapshot st = Some s -> DashboardSnapshot.blocks s <> [] ->
     exists block : BlockStatus.t,
       DashboardPage.selectedTwinBlock st chosen = Some block /\
       block ∈ DashboardSnapshot.blocks s /\
       BlockStatus.block_id block = chosen) /\
  (forall (s : DashboardSnapshot.t) (block : BlockStatus.t),
     Dashboard.snapshot st = Some s ->
     block ∈ DashboardSnapshot.blocks s ->
     BlockStatus.block_id block = selected -> selected <> "" ->
     chosen = selected) /\
  ((forall s : DashboardSnapshot.t,
      Dashboard.snapshot st = Some s -> DashboardSnapshot.blocks s = []) ->
   chosen = "" /\ DashboardPage.selectedTwinBlock st chosen = None).
Proof.
  cbv zeta.
  destruct (Dashboard.snapshot st) as [s|] eqn:Hs.
  2:{ assert (Hnone : forall s : DashboardSnapshot.t,
        Dashboard.snapshot st = Some s -> DashboardSnapshot.blocks s = []).
      { intros s Hs'. rewrite Hs in Hs'. discriminate. }
      rewrite !(selectTwinBlock_no_block st _ Hnone).
      split; [reflexivity|]. split; [intros s [=]|].
      split; [intros s block [=]|]. intros _. split; [reflexivity|].
      unfold DashboardPage.selectedTwinBlock. rewrite Hs. reflexivity. }
  destruct (DashboardSnapshot.blocks s) as [|first rest] eqn:Hblocks.
  { assert (Hnone : forall s : DashboardSnapshot.t,
      Dashboard.snapshot st = Some s -> DashboardSnapshot.blocks s = []).
    { intros s' Hs'. rewrite Hs in Hs'. injection Hs' as <-. exact Hblocks. }
    rewrite !(selectTwinBlock_no_block st _ Hnone).
    split; [reflexivity|]. split; [intros s' [= <-] Hne; done|].
    split.
    - intros s' block [= <-] Hin. rewrite Hblocks in Hin. inversion Hin.
    - intros _. split; [reflexivity|].
      rewrite (selectedTwinBlock_blocks st s _ Hs), Hblocks. reflexivity. }
  rewrite !(selectTwinBlock_blocks st s first rest _ Hs Hblocks).
  set (has := fun id : string =>
         existsb (fun block => String.eqb (BlockStatus.block_id block) id)
           (first :: rest)).
  assert (Hfirst : has (BlockStatus.block_id first) = true).
  { unfold has. cbn [existsb]. rewrite String.eqb_refl. reflexivity. }
  change (existsb (fun block => String.eqb (BlockStatus.block_id block) selected)
            (first :: rest)) with (has selected).
  set (chosen := if String.eqb selected "" || negb (has selected)
                 then BlockStatus.block_id first else selected).
  change (existsb (fun block => String.eqb (BlockStatus.block_id block) chosen)
            (first :: rest)) with (has chosen).
  assert (Hchosen : has chosen = true).
  { subst chosen. destruct (String.eqb selected ""); simpl; [exact Hfirst|].
    destruct (has selected) eqn:E; simpl; [exact E|exact Hfirst]. }
  assert (Hkeep : chosen = "" -> chosen = BlockStatus.block_id first).
  { subst chosen. destruct (String.eqb_spec selected "") as [->|Hne]; simpl;
      [reflexivity|].
    destruct (has selected); simpl; [intros E; contradiction|reflexivity]. }
  split; [|split; [|split]].
  - rewrite Hchosen. rewrite orb_false_r.
    destruct (String.eqb_spec chosen "") as [E|_]; [|reflexivity].
    symmetry. apply Hkeep, E.
  - intros s' [= <-] _. rewrite Hblocks.
    rewrite (selectedTwinBlock_blocks st s _ Hs), Hblocks.
    destruct (find_block_id (first :: rest) chosen Hchosen)
      as (block & Hfind & Hin & Hid).
    exists block. split; [exact Hfind|]. split; [exact Hin|exact Hid].
  - intros s' block [= <-] Hin Hid Hne. rewrite Hblocks in Hin.
    assert (Hhas : has selected = true).
    { unfold has. apply existsb_exists. exists block.
      split; [apply list_elem_of_In, Hin|]. apply String.eqb_eq, Hid. }
    subst chosen. rewrite Hhas.
    destruct (String.eqb_spec selected ""); [contradiction|reflexivity].
  - intros Hnone. specialize (Hnone s eq_refl).
    rewrite Hblocks in Hnone. discriminate.
Qed.

Lemma twin_selection_settles_sample :
  let st := Samples.page (Some (Samples.feed LIVE Samples.fourBlocks)) in
  DashboardPage.selectTwinBlock st "gone" = "C" /\
  DashboardPage.selectTwinBlock st "D" = "D" /\
  DashboardPage.selectTwinBlock st
    (DashboardPage.selectTwinBlock st "gone")
  = DashboardPage.selectTwinBlock st "gone" /\
  DashboardPage.selectTwinBlock (Samples.page None) "D" = "".
Proof.
  split; [reflexivity|]. split; [reflexivity|]. split; [|reflexivity].
  apply (twin_selection_settles
           (Samples.page (Some (Samples.feed LIVE Samples.fourBlocks)))
           "gone").
Defined.

(** ** The Dashboard page: twin effects by action *)

Lemma addEffect_lookup (map : gmap string (list TwinEffect.t))
    (effect : TwinEffect.t) (k : string) :
  default [] (DashboardPage.addEffect map effect !! k)
  = (default [] (map !! k)
     ++ if decide (TwinEffect.action_id effect = Some k /\ k <> "")
        then [effect] else [])%list.
Proof.
  unfold DashboardPage.addEffect.
  destruct (TwinEffect.action_id effect) as [id|] eqn:Hid.
  - destruct (String.eqb_spec id "") as [->|Hne].
    + destruct (decide _) as [[[= <-] Hk]|_]; [done|].
      rewrite app_nil_r. reflexivity.
    + destruct (decide (id = k)) as [->|Hk].
      * rewrite lookup_insert_eq.
        destruct (decide _) as [_|Hn]; [reflexivity|]. exfalso. apply Hn. done.
      * rewrite lookup_insert_ne by exact Hk.
        destruct (decide _) as [[[= ?] _]|_]; [done|].
        rewrite app_nil_r. reflexivity.
  - destruct (decide _) as [[? _]|_]; [done|].
    rewrite app_nil_r. reflexivity.
Qed.

Lemma actionTwinEffects_filter (twinEffects : list TwinEffect.t)
    (k : string) :
  DashboardPage.actionTwinEffects twinEffects k
  = filter (fun effect => TwinEffect.action_id effect = Some k /\ k <> "")
      twinEffects.
Proof.
  unfold DashboardPage.actionTwinEffects, DashboardPage.twinEffectsByActionId.
  induction twinEffects as [|effect effects IH] using rev_ind;
    [reflexivity|].
  rewrite foldl_snoc, addEffect_lookup, IH, filter_app. reflexivity.
Qed.

Lemma twinEffects_entry (twinEffects : list TwinEffect.t) (k : string) :
  is_Some (DashboardPage.twinEffectsByActionId twinEffects !! k) ->
  exists effect : TwinEffect.t,
    effect ∈ twinEffects /\ TwinEffect.action_id effect = Some k.
Proof.
  unfold DashboardPage.twinEffectsByActionId.
  induction twinEffects as [|effect effects IH] using rev_ind.
  - simpl. rewrite lookup_empty. intros [? [=]].
  - rewrite foldl_snoc. unfold DashboardPage.addEffect at 1.
    assert (Hold : is_Some (foldl DashboardPage.addEffect ∅ effects !! k) ->
      exists e, e ∈ (effects ++ [effect])%list /\
                TwinEffect.action_id e = Some k).
    { intros Hsome. destruct (IH Hsome) as (e & Hin & He).
      exists e. split; [apply elem_of_app; left; exact Hin|exact He]. }
    destruct (TwinEffect.action_id effect) as [id|] eqn:Ha; [|exact Hold].
    destruct (String.eqb id ""); [exact Hold|].
    destruct (decide (id = k)) as [->|Hk].
    + intros _. exists effect.
      split; [apply elem_of_app; right; apply list_elem_of_here|exact Ha].
    + rewrite lookup_insert_ne by exact Hk. exact Hold.
Qed.

(** X16.  [twinEffectsByActionId] groups the twin effects by action: the
    effects shown under an action whose id is not empty are exactly the
    effects that carry this [action_id], in the order of the snapshot, and
    the map has an entry for an id only when some effect carries it; effects
    without an [action_id] are in no group. *)
Theorem twin_effects_are_grouped (twinEffects : list TwinEffect.t)
    (action_id : string) :
  action_id <> "" ->
  DashboardPage.actionTwinEffects twinEffects action_id
  = filter (fun effect => TwinEffect.action_id effect = Some action_id)
      twinEffects /\
  (is_Some (DashboardPage.twinEffectsByActionId twinEffects !! action_id) <->
   exists effect : TwinEffect.t,
     effect ∈ twinEffects /\ TwinEffect.action_id effect = Some action_id) /\
  DashboardPage.actionTwinEffects twinEffects "" = [].
Proof.
  intros Hid. split; [|split].
  - rewrite actionTwinEffects_filter. apply list_filter_iff.
    intros effect. tauto.
  - split; [apply twinEffects_entry|].
    intros (effect & Hin & Ha).
    assert (Hne : DashboardPage.actionTwinEffects twinEffects action_id <> []).
    { rewrite actionTwinEffects_filter. intros Hnil.
      eapply (filter_nil_not_elem_of _ _ effect); [exact Hnil| |exact Hin].
      split; assumption. }
    unfold DashboardPage.actionTwinEffects in Hne.
    destruct (DashboardPage.twinEffectsByActionId twinEffects !! action_id);
      [eexists; reflexivity|done].
  - rewrite actionTwinEffects_filter. apply filter_nil_Forall, Forall_forall.
    intros effect _ [_ Hne]. done.
Qed.

Lemma twin_effects_are_grouped_sample :
  DashboardPage.actionTwinEffects MoreSamples.threeEffects "a1"
  = [ MoreSamples.twinEffect "e1" (Some "a1");
      MoreSamples.twinEffect "e3" (Some "a1") ] /\
  DashboardPage.actionTwinEffects MoreSamples.threeEffects "a2" = [].
Proof.
  destruct (twin_effects_are_grouped MoreSamples.threeEffects "a1")
    as (Hgroup & _); [discriminate|].
  destruct (twin_effects_are_grouped MoreSamples.threeEffects "a2")
    as (Hnone & _); [discriminate|].
  split; [rewrite Hgroup|rewrite Hnone]; reflexivity.
Defined.

(** ** The Booting page: the progress bar *)




(** ** Sparkline: a NaN among the values *)

Lemma Math_min_NaN (values : list number) :
  NaN ∈ values -> Math_min values = NaN.
Proof.
  induction values as [|v values IH]; [intros H; inversion H|].
  intros [<-|Hin]%elem_of_cons.
  - reflexivity.
  - change (Math_min (v :: values)) with (min2 v (Math_min values)).
    rewrite (IH Hin). destruct v; reflexivity.
Qed.

(** X18.  One NaN among the values blanks the whole polyline: every
    ordinate is NaN, also those of the finite values. *)
Theorem sparkline_nan_blanks_the_line (values : list number)
    (height : number) (i : nat) (xy : number * number) :
  NaN ∈ values ->
  Sparkline.points values height !! i = Some xy ->
  xy.2 = NaN.
Proof.
  intros Hnan Hxy.
  destruct (points_lookup _ _ _ _ Hxy) as (v & _ & ->).
  unfold Sparkline.point. cbn [snd]. rewrite (Math_min_NaN values Hnan).
  assert (Hsub : sub v NaN = NaN) by (destruct v; reflexivity).
  rewrite Hsub.
  assert (Hdiv : forall r : number, div NaN r = NaN) by (intros []; reflexivity).
  assert (Hmul : forall h : number, mul NaN h = NaN) by (intros []; reflexivity).
  rewrite Hdiv, Hmul. destruct height; reflexivity.
Qed.

Lemma sparkline_nan_blanks_the_line_sample :
  NaN ∈ [Fin 9; NaN; Fin 4] /\
  exists xy : number * number,
    Sparkline.points [Fin 9; NaN; Fin 4] (Fin 36) !! 0%nat = Some xy /\
    xy.2 = NaN.
Proof.
  assert (Hnan : NaN ∈ [Fin 9; NaN; Fin 4]).
  { apply list_elem_of_further, list_elem_of_here. }
  split; [exact Hnan|]. eexists. split; [reflexivity|].
  apply (sparkline_nan_blanks_the_line [Fin 9; NaN; Fin 4] (Fin 36) 0);
    [exact Hnan|reflexivity].
Defined.

(** ** The Dashboard page: when the stream is shown live *)

(** X19.  The Dashboard shows "LIVE STREAM", and the green dot, exactly
    when the socket status is "live", the last message is less than 6000 ms
    old and the page is not waiting for data; the dot is green in no other
    case. *)
Theorem live_stream_is_shown (st : Dashboard.State) :
  (Dashboard.streamLabel st = "LIVE STREAM" <->
   Dashboard.status st = "live" /\
   (exists at_ms : Z,
      Dashboard.lastMessageAt st = Some at_ms /\
      (Dashboard.now st - at_ms < 6000)%Z) /\
   Dashboard.waitingForData st = false) /\
  (Dashboard.streamDotClass st = "bg-neon-green" <->
   Dashboard.streamLabel st = "LIVE STREAM").
Proof.
  assert (Hlive : Dashboard.liveFromEvents st = true <->
    Dashboard.status st = "live" /\
    exists at_ms : Z,
      Dashboard.lastMessageAt st = Some at_ms /\
      (Dashboard.now st - at_ms < 6000)%Z).
  { unfold Dashboard.liveFromEvents. rewrite andb_true_iff, String.eqb_eq.
    destruct (Dashboard.lastMessageAt st) as [t|].
    - rewrite Z.ltb_lt. split.
      + intros [Hs Ht]. split; [exact Hs|]. exists t. split; [reflexivity|exact Ht].
      + intros [Hs (t' & [= <-] & Ht)]. split; assumption.
    - split; [intros [_ [=]]|intros [_ (t & [=] & _)]]. }
  unfold Dashboard.streamLabel, Dashboard.streamDotClass, Dashboard.isLive.
  destruct (Dashboard.waitingForData st); simpl.
  - split; split; try discriminate. intros (_ & _ & [=]).
  - rewrite andb_true_r.
    destruct (Dashboard.liveFromEvents st) eqn:E; simpl.
    + split; [|split; reflexivity].
      split; [intros _|reflexivity].
      destruct Hlive as [Hlive _]. destruct (Hlive eq_refl) as [Hs Ht].
      split; [exact Hs|]. split; [exact Ht|reflexivity].
    + split; [|split; discriminate].
      split; [discriminate|]. intros (Hs & Ht & _).
      destruct Hlive as [_ Hlive]. discriminate Hlive. split; assumption.
Qed.

Lemma live_stream_is_shown_sample :
  let st := Samples.page (Some (Samples.feed LIVE Samples.fourBlocks)) in
  Dashboard.streamLabel st = "LIVE STREAM" /\
  Dashboard.streamDotClass st = "bg-neon-green".
Proof.
  destruct (live_stream_is_shown
              (Samples.page (Some (Samples.feed LIVE Samples.fourBlocks))))
    as (Hlabel & Hdot).
  assert (Hl : Dashboard.streamLabel
                 (Samples.page (Some (Samples.feed LIVE Samples.fourBlocks)))
               = "LIVE STREAM").
  { apply Hlabel. split; [reflexivity|]. split; [|reflexivity].
    exists 1700000000000%Z. split; reflexivity. }
  split; [exact Hl|]. apply Hdot, Hl.
Defined.
